(** * Task manager: board presenter, date predicates and mock generator

    A shallow embedding of the task manager's JavaScript sources:

    - the date helpers [getCurrentDate], [isTaskExpired], [isTaskExpiringToday]
      and [isTaskRepeating];
    - the mock generator [generateTask] with its helpers;
    - the [Board] presenter: [_getTasks], [_handleViewAction],
      [_handleModelEvent], [_handleSortTypeChange], [_renderTask],
      [_renderTasks], [_handleLoadMoreButtonClick], [_clearBoard],
      [_renderBoard] and the small render helpers.

    Objects that the source shares by reference (the task presenters, which
    are reachable from the registry [_taskPresenter] and from the task list
    they are rendered in) live in an explicit store and are named by handles. *)

From Stdlib Require Import ZArith List Lia Bool.
From stdpp Require Import base option list gmap strings.
Import ListNotations.

(** ** JavaScript values used by the sources *)

Module Js.

(** A [Date] object holds a time value: a number of milliseconds since the
    epoch, or [NaN] for an invalid date ([None] here). *)
Record Date := mkDate { getTime : option Z }.

(** The host's time zone, as the language uses it: the offset of local
    time from UTC in force at an instant ([LocalTZA(t, true)]), and the
    offset by which a local time is read back as an instant
    ([LocalTZA(t, false)]), both in milliseconds.  The two change with the
    zone's daylight-saving rules. *)
Record Zone := mkZone { offsetAt : Z -> Z; offsetOfLocal : Z -> Z }.

(** A zone without daylight saving. *)
Definition fixedZone (offset : Z) : Zone :=
  mkZone (fun _ => offset) (fun _ => offset).

(** What the host gives to one run of a handler: the instant read by
    [new Date()], in milliseconds since the epoch, and the time zone. *)
Record Env := mkEnv { nowMs : Z; zone : Zone }.

Definition msPerDay : Z := 86400000.

(** [LocalTime(t)] and [UTC(t)] *)
Definition LocalTime (z : Zone) (t : Z) : Z := (t + offsetAt z t)%Z.
Definition UTC (z : Zone) (l : Z) : Z := (l - offsetOfLocal z l)%Z.

(** [TimeClip]: a [Date] holds no instant further than 8.64e15 ms from the
    epoch; a method that computes one leaves [NaN]. *)
Definition maxTime : Z := 8640000000000000.

Definition TimeClip (v : Z) : option Z :=
  if bool_decide (- maxTime <= v <= maxTime)%Z then Some v else None.

(** [new Date()] *)
Definition newDate (env : Env) : Date := mkDate (Some (nowMs env)).

(** [date.setHours(23, 59, 59, 999)]: the day of the local time of [date]
    with the time of day 23:59:59.999, read back as an instant. *)
Definition setHours_23_59_59_999 (env : Env) (d : Date) : Date :=
  match getTime d with
  | None => mkDate None
  | Some t =>
      let localT := LocalTime (zone env) t in
      let dayStart := (localT - localT mod msPerDay)%Z in
      let newLocal :=
        (dayStart + (23 * 3600000 + 59 * 60000 + 59 * 1000 + 999))%Z in
      mkDate (TimeClip (UTC (zone env) newLocal))
  end.

(** [date.setDate(date.getDate() + days)]: the local time of [date] moved
    by [days] calendar days, the time of day kept, read back as an
    instant. *)
Definition addDays (env : Env) (days : Z) (d : Date) : Date :=
  match getTime d with
  | None => mkDate None
  | Some t =>
      let localT := LocalTime (zone env) t in
      mkDate (TimeClip (UTC (zone env) (localT + days * msPerDay)%Z))
  end.

(** [a > b] and [a === b] on numbers; a comparison with [NaN] is false. *)
Definition num_gt (a b : option Z) : bool :=
  match a, b with
  | Some x, Some y => bool_decide (y < x)%Z
  | _, _ => false
  end.

Definition num_strict_eq (a b : option Z) : bool :=
  match a, b with
  | Some x, Some y => bool_decide (x = y)
  | _, _ => false
  end.

(** [Boolean(n)] for an integer [n]. *)
Definition Boolean (n : Z) : bool := negb (bool_decide (n = 0%Z)).

(** [arr[i]] for an integer [i]: [undefined] ([None]) out of range. *)
Definition index {A} (arr : list A) (i : Z) : option A :=
  if bool_decide (0 <= i)%Z then arr !! Z.to_nat i else None.

(** [arr.slice(from, to)] for non-negative integers. *)
Definition slice {A} (from to : nat) (arr : list A) : list A :=
  take (to - from) (drop from arr).

(** [arr.sort(compare)]: the sort is stable; [x] is placed after [y] only
    when [compare(x, y) > 0]. *)
Fixpoint sort_insert {A} (compare : A -> A -> Z) (x : A) (sorted : list A)
  : list A :=
  match sorted with
  | [] => [x]
  | y :: rest =>
      if bool_decide (0 < compare x y)%Z
      then y :: sort_insert compare x rest
      else x :: y :: rest
  end.

Definition sort {A} (compare : A -> A -> Z) (arr : list A) : list A :=
  foldr (sort_insert compare) [] arr.

End Js.

(** ** The task entity *)

Record Repeating := mkRepeating {
  mo : bool; tu : bool; we : bool; th : bool; fr : bool; sa : bool; su : bool
}.

(** The fields [generateTask] fills in.  [description] and [color] are read
    out of arrays by index, so they can be [undefined] ([None]). *)
Record TaskData := mkTaskData {
  description : option string;
  dueDate : option Js.Date;        (* [null] is [None] *)
  repeating : Repeating;
  color : option string;
  isArchive : bool;
  isFavorite : bool
}.

Abbreviation Id := Z (only parsing).

(** A task of the collection: the server gives it its [id]. *)
Record Task := mkTask { id : Id; data : TaskData }.

Definition noRepeating : Repeating :=
  mkRepeating false false false false false false false.

(** ** Date helpers *)

(** [getCurrentDate] *)
Definition getCurrentDate (env : Js.Env) : Js.Date :=
  let currentDate := Js.newDate env in
  let currentDate := Js.setHours_23_59_59_999 env currentDate in
  Js.mkDate (Js.getTime currentDate).

(** [isTaskExpired] *)
Definition isTaskExpired (env : Js.Env) (dueDate : option Js.Date) : bool :=
  match dueDate with
  | None => false
  | Some dueDate =>
      let currentDate := getCurrentDate env in
      Js.num_gt (Js.getTime currentDate) (Js.getTime dueDate)
  end.

(** [isTaskExpiringToday] *)
Definition isTaskExpiringToday (env : Js.Env) (dueDate : option Js.Date) : bool :=
  match dueDate with
  | None => false
  | Some dueDate =>
      let currentDate := getCurrentDate env in
      Js.num_strict_eq (Js.getTime currentDate) (Js.getTime dueDate)
  end.

(** [isTaskRepeating]: [Object.values(repeating).some(Boolean)] *)
Definition isTaskRepeating (r : Repeating) : bool :=
  existsb (fun flag => flag) [mo r; tu r; we r; th r; fr r; sa r; su r].

(** ** The mock generator *)

Section Mock.

(** The random source is threaded through the generator, one draw per call
    of [getRandomInteger], in the order the source makes them. *)
Variable Rng : Type.

(** [getRandomInteger(a, b)] of [utils] and the palette [COLORS] of [const]
    are not part of the sources at hand; they are taken as they come. *)
Variable getRandomInteger : Z -> Z -> Rng -> Z * Rng.
Variable COLORS : list string.

Definition Gen (A : Type) : Type := Rng -> A * Rng.

Definition gret {A} (a : A) : Gen A := fun g => (a, g).

Definition gbind {A B} (m : Gen A) (k : A -> Gen B) : Gen B :=
  fun g => let '(a, g') := m g in k a g'.

Notation "x <- m ;; k" := (gbind m (fun x => k))
  (at level 100, m at next level, right associativity).

Definition generateDescription : Gen (option string) :=
  let descriptions :=
    [ "Изучить теорию"; "Сделать домашку"; "Пройти интенсив на соточку" ]%string in
  randomIndex <- getRandomInteger 0 (Z.of_nat (length descriptions) - 1) ;;
  gret (Js.index descriptions randomIndex).

Definition generateDate (env : Js.Env) : Gen (option Js.Date) :=
  r <- getRandomInteger 0 1 ;;
  let isDate := Js.Boolean r in
  if negb isDate then gret None
  else
    let maxDaysGap := 7%Z in
    daysGap <- getRandomInteger (- maxDaysGap) maxDaysGap ;;
    let currentDate := Js.newDate env in
    let currentDate := Js.setHours_23_59_59_999 env currentDate in
    let currentDate := Js.addDays env daysGap currentDate in
    gret (Some (Js.mkDate (Js.getTime currentDate))).

Definition generateRepeatingDays : Gen Repeating :=
  w <- getRandomInteger 0 1 ;;
  f <- getRandomInteger 0 1 ;;
  gret {| mo := false; tu := false; we := Js.Boolean w; th := false;
          fr := Js.Boolean f; sa := false; su := false |}.

Definition getRandomColor : Gen (option string) :=
  randomIndex <- getRandomInteger 0 (Z.of_nat (length COLORS) - 1) ;;
  gret (Js.index COLORS randomIndex).

Definition generateTask (env : Js.Env) : Gen TaskData :=
  dueDate <- generateDate env ;;
  repeating <-
    match dueDate with
    | None => generateRepeatingDays
    | Some _ =>
        gret {| mo := false; tu := false; we := false; th := false;
                fr := false; sa := false; su := false |}
    end ;;
  description <- generateDescription ;;
  color <- getRandomColor ;;
  a <- getRandomInteger 0 1 ;;
  f <- getRandomInteger 0 1 ;;
  gret {| description := description; dueDate := dueDate;
          repeating := repeating; color := color;
          isArchive := Js.Boolean a; isFavorite := Js.Boolean f |}.

End Mock.

(** ** Enumerations of [const]

    Modelled from the spec: [const] is not part of the sources at hand.  The
    members of [SortType], [UserAction] and [UpdateType] are those the board
    names ([SortType.DATE_UP], [UserAction.UPDATE_TASK], ...), which are the
    ones sections 3 and 4.5 list; the filter categories are those of
    section 3. *)

Inductive SortType := DEFAULT | DATE_UP | DATE_DOWN.
Inductive UserAction := UPDATE_TASK | ADD_TASK | DELETE_TASK.
Inductive UpdateType := PATCH | MINOR | MAJOR | INIT.
Inductive FilterType := ALL | OVERDUE | TODAY | FAVORITES | ARCHIVE.

Global Instance SortType_eq_dec : EqDecision SortType.
Proof. solve_decision. Defined.

(** ** Presenters of single tasks *)

(** Modelled from the spec: the class [TaskPresenter] of [presenter/task] is
    not part of the sources at hand.  Its view state machine has the states
    of section 4.2; [init] binds the presenter to the entity and renders it
    (a first [init] appends the card to the task list, a later one replaces
    the card in place and leaves the presenter in [NORMAL]); [setViewState]
    applies a state to the rendered form and leaves the entity alone;
    [destroy] detaches the card and is idempotent. *)
Inductive ViewState := NORMAL | EDITING | SAVING | DELETING | ABORTING.

Record TaskPresenter := mkTaskPresenter {
  boundTask : option Task;      (* [None] until the first [init] *)
  viewState : ViewState
}.

(** Modelled from the spec: the class [TaskNewPresenter] of
    [presenter/task-new] is not part of the sources at hand.  Per section 4.3
    it has the saving/aborting states of an item presenter and no entity. *)
Inductive TaskNewState := Dismissed | Drafting | NewSaving | NewAborting.

(** A presenter object is named by its handle: its address in the store. *)
Abbreviation Handle := nat (only parsing).

(** A store of arrays; an array is named by its position in the store. *)
Abbreviation Arrays := (list (list Task)) (only parsing).

(** A call of the async service, with what its two callbacks close over. *)
Record Request := mkRequest {
  reqAction : UserAction;
  reqUpdateType : UpdateType;
  reqUpdate : Task
}.

(** ** The board presenter's state *)

Record Board := mkBoard {
  tasksModel : list Task;                 (* [_tasksModel.getTasks()] *)
  filterModel : FilterType;               (* [_filterModel.getFilter()] *)
  api : list Request;                     (* calls made to [_api], oldest first *)
  renderedTasksCount : nat;
  currentSortType : SortType;
  taskPresenter : gmap Id Handle;         (* [_taskPresenter]: id to presenter *)
  isLoading : bool;
  (* view components: [None] is [null]; the flag tells whether the component
     the field refers to is attached to the page *)
  sortComponent : option (SortType * bool);
  loadMoreButtonComponent : option bool;
  noTaskComponent : bool;
  loadingComponent : bool;
  taskNewPresenter : TaskNewState;
  (* the objects the fields above share *)
  presenters : list TaskPresenter;        (* store of presenter objects *)
  taskListComponent : list Handle         (* cards in the task list, in order *)
}.

Definition set_tasksModel (v : list Task) (b : Board) : Board :=
  mkBoard v (filterModel b) (api b) (renderedTasksCount b) (currentSortType b)
    (taskPresenter b) (isLoading b) (sortComponent b)
    (loadMoreButtonComponent b) (noTaskComponent b) (loadingComponent b)
    (taskNewPresenter b) (presenters b) (taskListComponent b).

Definition set_api (v : list Request) (b : Board) : Board :=
  mkBoard (tasksModel b) (filterModel b) v (renderedTasksCount b)
    (currentSortType b) (taskPresenter b) (isLoading b) (sortComponent b)
    (loadMoreButtonComponent b) (noTaskComponent b) (loadingComponent b)
    (taskNewPresenter b) (presenters b) (taskListComponent b).

Definition set_renderedTasksCount (v : nat) (b : Board) : Board :=
  mkBoard (tasksModel b) (filterModel b) (api b) v (currentSortType b)
    (taskPresenter b) (isLoading b) (sortComponent b)
    (loadMoreButtonComponent b) (noTaskComponent b) (loadingComponent b)
    (taskNewPresenter b) (presenters b) (taskListComponent b).

Definition set_currentSortType (v : SortType) (b : Board) : Board :=
  mkBoard (tasksModel b) (filterModel b) (api b) (renderedTasksCount b) v
    (taskPresenter b) (isLoading b) (sortComponent b)
    (loadMoreButtonComponent b) (noTaskComponent b) (loadingComponent b)
    (taskNewPresenter b) (presenters b) (taskListComponent b).

Definition set_taskPresenter (v : gmap Id Handle) (b : Board) : Board :=
  mkBoard (tasksModel b) (filterModel b) (api b) (renderedTasksCount b)
    (currentSortType b) v (isLoading b) (sortComponent b)
    (loadMoreButtonComponent b) (noTaskComponent b) (loadingComponent b)
    (taskNewPresenter b) (presenters b) (taskListComponent b).

Definition set_isLoading (v : bool) (b : Board) : Board :=
  mkBoard (tasksModel b) (filterModel b) (api b) (renderedTasksCount b)
    (currentSortType b) (taskPresenter b) v (sortComponent b)
    (loadMoreButtonComponent b) (noTaskComponent b) (loadingComponent b)
    (taskNewPresenter b) (presenters b) (taskListComponent b).

Definition set_sortComponent (v : option (SortType * bool)) (b : Board) : Board :=
  mkBoard (tasksModel b) (filterModel b) (api b) (renderedTasksCount b)
    (currentSortType b) (taskPresenter b) (isLoading b) v
    (loadMoreButtonComponent b) (noTaskComponent b) (loadingComponent b)
    (taskNewPresenter b) (presenters b) (taskListComponent b).

Definition set_loadMoreButtonComponent (v : option bool) (b : Board) : Board :=
  mkBoard (tasksModel b) (filterModel b) (api b) (renderedTasksCount b)
    (currentSortType b) (taskPresenter b) (isLoading b) (sortComponent b)
    v (noTaskComponent b) (loadingComponent b)
    (taskNewPresenter b) (presenters b) (taskListComponent b).

Definition set_noTaskComponent (v : bool) (b : Board) : Board :=
  mkBoard (tasksModel b) (filterModel b) (api b) (renderedTasksCount b)
    (currentSortType b) (taskPresenter b) (isLoading b) (sortComponent b)
    (loadMoreButtonComponent b) v (loadingComponent b)
    (taskNewPresenter b) (presenters b) (taskListComponent b).

Definition set_loadingComponent (v : bool) (b : Board) : Board :=
  mkBoard (tasksModel b) (filterModel b) (api b) (renderedTasksCount b)
    (currentSortType b) (taskPresenter b) (isLoading b) (sortComponent b)
    (loadMoreButtonComponent b) (noTaskComponent b) v
    (taskNewPresenter b) (presenters b) (taskListComponent b).

Definition set_taskNewPresenter (v : TaskNewState) (b : Board) : Board :=
  mkBoard (tasksModel b) (filterModel b) (api b) (renderedTasksCount b)
    (currentSortType b) (taskPresenter b) (isLoading b) (sortComponent b)
    (loadMoreButtonComponent b) (noTaskComponent b) (loadingComponent b)
    v (presenters b) (taskListComponent b).

Definition set_presenters (v : list TaskPresenter) (b : Board) : Board :=
  mkBoard (tasksModel b) (filterModel b) (api b) (renderedTasksCount b)
    (currentSortType b) (taskPresenter b) (isLoading b) (sortComponent b)
    (loadMoreButtonComponent b) (noTaskComponent b) (loadingComponent b)
    (taskNewPresenter b) v (taskListComponent b).

Definition set_taskListComponent (v : list Handle) (b : Board) : Board :=
  mkBoard (tasksModel b) (filterModel b) (api b) (renderedTasksCount b)
    (currentSortType b) (taskPresenter b) (isLoading b) (sortComponent b)
    (loadMoreButtonComponent b) (noTaskComponent b) (loadingComponent b)
    (taskNewPresenter b) (presenters b) v.

(** A handler either returns or throws; a throw keeps what was written
    before it. *)
Inductive Exn := TypeError | ModelError.

Inductive Result :=
  | Done (b : Board)
  | Threw (e : Exn) (b : Board).

(** One turn of the event loop after another: a throw ends the trace. *)
Definition andThen (r : Result) (k : Board -> Result) : Result :=
  match r with
  | Done b => k b
  | Threw e b => Threw e b
  end.

(** The state a handler leaves, returned or thrown. *)
Definition boardOf (r : Result) : Board :=
  match r with
  | Done b => b
  | Threw _ b => b
  end.

(** How the service settles a call. *)
Inductive Settlement :=
  | Resolved (response : Task)
  | Rejected.

Definition TASK_AMOUNT_PER_STEP : nat := 8.

(** The state the constructor leaves, for a collection and a filter held by
    the two models. *)
Definition newBoard (tasks : list Task) (filterType : FilterType) : Board :=
  {| tasksModel := tasks; filterModel := filterType; api := [];
     renderedTasksCount := TASK_AMOUNT_PER_STEP;
     currentSortType := DEFAULT;
     taskPresenter := ∅;
     isLoading := true;
     sortComponent := None; loadMoreButtonComponent := None;
     noTaskComponent := false; loadingComponent := false;
     taskNewPresenter := Dismissed;
     presenters := []; taskListComponent := [] |}.

(** *** Methods of the presenters (see the notes at their types) *)

Module Presenter.

(** [new TaskPresenter(...)] *)
Definition new (b : Board) : Handle * Board :=
  (length (presenters b),
   set_presenters (presenters b ++ [mkTaskPresenter None NORMAL]) b).

(** [presenter.init(task)] *)
Definition init (h : Handle) (task : Task) (b : Board) : Board :=
  match presenters b !! h with
  | None => b
  | Some p =>
      let b1 := set_presenters
                  (<[h := mkTaskPresenter (Some task) NORMAL]> (presenters b)) b in
      match boundTask p with
      | None => set_taskListComponent (taskListComponent b1 ++ [h]) b1
      | Some _ => b1
      end
  end.

(** [presenter.setViewState(state)] *)
Definition setViewState (h : Handle) (state : ViewState) (b : Board) : Board :=
  set_presenters
    (alter (fun p => mkTaskPresenter (boundTask p) state) h (presenters b)) b.

(** [presenter.destroy()] *)
Definition destroy (h : Handle) (b : Board) : Board :=
  set_taskListComponent
    (filter (fun h' => h' ≠ h) (taskListComponent b)) b.

End Presenter.

(** Modelled from the spec: [render] and [remove] of [utils/render] are not
    part of the sources at hand.  [remove] detaches the component it is given
    and does nothing for [null] or for a component that is not attached
    ([_clearBoard] calls it on fields that are still [null]). *)
Definition remove_sort (b : Board) : Board :=
  set_sortComponent ((fun c => (c.1, false)) <$> sortComponent b) b.

Definition remove_loadMoreButton (b : Board) : Board :=
  set_loadMoreButtonComponent ((fun _ => false) <$> loadMoreButtonComponent b) b.

(** ** The board presenter *)

Section BoardPresenter.

(** Modelled from the spec: the table [filter] of [utils/filter] is not
    part of the sources at hand.  Per section 4.1 each category is a pure
    predicate on a task, evaluated against the current moment, and
    [filter[category](tasks)] keeps the tasks that satisfy it, in order, in
    an array of its own. *)
Variable filterPredicate : FilterType -> Js.Env -> Task -> bool.

(** The comparators [sortTasksUp] and [sortTasksDown] of [utils/task] are
    not part of the sources at hand; they are taken as they come. *)
Variable sortTasksUp sortTasksDown : Task -> Task -> Z.

(** Modelled from the spec: the class of [_tasksModel] is not part of the
    sources at hand.  Each of its three mutators changes the collection
    ([None] when it throws instead) and then notifies the observers once
    with the update type and the payload. *)
Variable modelUpdateTask modelAddTask modelDeleteTask :
  Task -> list Task -> option (list Task).

(** [filter[filterType](tasks)] *)
Definition filter_by (filterType : FilterType) (env : Js.Env)
    (tasks : list Task) : list Task :=
  List.filter (filterPredicate filterType env) tasks.

(** [_getTasks] *)
Definition getTasks (env : Js.Env) (b : Board) : list Task :=
  let filterType := filterModel b in
  let tasks := tasksModel b in
  let filtredTasks := filter_by filterType env tasks in
  match currentSortType b with
  | DATE_UP => Js.sort sortTasksUp filtredTasks
  | DATE_DOWN => Js.sort sortTasksDown filtredTasks
  | DEFAULT => filtredTasks
  end.

(** [_handleViewAction]: the part that runs when the action is dispatched.
    [_taskPresenter[update.id]] is [undefined] for an id that is not
    registered, and calling a method on it throws. *)
Definition handleViewAction (actionType : UserAction) (updateType : UpdateType)
    (update : Task) (b : Board) : Result :=
  match actionType with
  | UPDATE_TASK =>
      match taskPresenter b !! id update with
      | None => Threw TypeError b
      | Some h =>
          let b1 := Presenter.setViewState h SAVING b in
          Done (set_api (api b1 ++ [mkRequest UPDATE_TASK updateType update]) b1)
      end
  | ADD_TASK =>
      let b1 := set_taskNewPresenter NewSaving b in
      Done (set_api (api b1 ++ [mkRequest ADD_TASK updateType update]) b1)
  | DELETE_TASK =>
      match taskPresenter b !! id update with
      | None => Threw TypeError b
      | Some h =>
          let b1 := Presenter.setViewState h DELETING b in
          Done (set_api (api b1 ++ [mkRequest DELETE_TASK updateType update]) b1)
      end
  end.

(** [_renderSort] *)
Definition renderSort (b : Board) : Board :=
  set_sortComponent (Some (currentSortType b, true)) b.

(** [_renderTask] *)
Definition renderTask (task : Task) (b : Board) : Board :=
  let '(taskPresenter_h, b1) := Presenter.new b in
  let b2 := Presenter.init taskPresenter_h task b1 in
  set_taskPresenter (<[id task := taskPresenter_h]> (taskPresenter b2)) b2.

(** [_renderTasks] *)
Definition renderTasks (tasks : list Task) (b : Board) : Board :=
  foldl (fun acc task => renderTask task acc) b tasks.

(** [_renderLoading] *)
Definition renderLoading (b : Board) : Board := set_loadingComponent true b.

(** [_renderNoTasks] *)
Definition renderNoTasks (b : Board) : Board := set_noTaskComponent true b.

(** [_handleLoadMoreButtonClick] *)
Definition handleLoadMoreButtonClick (env : Js.Env) (b : Board) : Board :=
  let taskCount := length (getTasks env b) in
  let newRenderedTaskCount :=
    Nat.min taskCount (renderedTasksCount b + TASK_AMOUNT_PER_STEP) in
  let tasks :=
    Js.slice (renderedTasksCount b) newRenderedTaskCount (getTasks env b) in
  let b1 := renderTasks tasks b in
  let b2 := set_renderedTasksCount newRenderedTaskCount b1 in
  if taskCount <=? renderedTasksCount b2
  then remove_loadMoreButton b2
  else b2.

(** [_renderLoadMoreButton] *)
Definition renderLoadMoreButton (b : Board) : Board :=
  set_loadMoreButtonComponent (Some true) b.

(** [Object.values(this._taskPresenter).forEach(destroy)].  The order in
    which the registry is walked does not show in the result. *)
Definition destroyAll (handles : list Handle) (b : Board) : Board :=
  foldr Presenter.destroy b handles.

(** [_clearBoard] *)
Definition clearBoard (resetRenderedTaskCount resetSortType : bool)
    (env : Js.Env) (b : Board) : Board :=
  let taskCount := length (getTasks env b) in
  let b1 := set_taskNewPresenter Dismissed b in
  let b2 := destroyAll (map_to_list (taskPresenter b1)).*2 b1 in
  let b3 := set_taskPresenter ∅ b2 in
  let b4 := remove_sort b3 in
  let b5 := set_noTaskComponent false b4 in
  let b6 := set_loadingComponent false b5 in
  let b7 := remove_loadMoreButton b6 in
  let b8 :=
    if resetRenderedTaskCount
    then set_renderedTasksCount TASK_AMOUNT_PER_STEP b7
    else set_renderedTasksCount (Nat.min taskCount (renderedTasksCount b7)) b7 in
  if resetSortType then set_currentSortType DEFAULT b8 else b8.

(** [_renderBoard] *)
Definition renderBoard (env : Js.Env) (b : Board) : Board :=
  if isLoading b then renderLoading b
  else
    let tasks := getTasks env b in
    let taskCount := length (getTasks env b) in
    if taskCount =? 0 then renderNoTasks b
    else
      let b1 := renderSort b in
      let b2 :=
        renderTasks
          (Js.slice 0 (Nat.min taskCount (renderedTasksCount b1)) tasks) b1 in
      if renderedTasksCount b2 <? taskCount
      then renderLoadMoreButton b2
      else b2.

(** [init]: the board's containers are put on the page, the board
    subscribes [_handleModelEvent] to both models, and the board is
    rendered.  From then on each notification of a model is a call of
    [handleModelEvent]. *)
Definition init (env : Js.Env) (b : Board) : Board := renderBoard env b.

(** [_handleModelEvent] *)
Definition handleModelEvent (env : Js.Env) (updateType : UpdateType)
    (data : Task) (b : Board) : Result :=
  match updateType with
  | PATCH =>
      match taskPresenter b !! id data with
      | None => Threw TypeError b
      | Some h => Done (Presenter.init h data b)
      end
  | MINOR =>
      Done (renderBoard env (clearBoard false false env b))
  | MAJOR =>
      Done (renderBoard env (clearBoard true true env b))
  | INIT =>
      let b1 := set_isLoading false b in
      let b2 := set_loadingComponent false b1 in
      Done (renderBoard env b2)
  end.

(** [_handleSortTypeChange] *)
Definition handleSortTypeChange (env : Js.Env) (sortType : SortType)
    (b : Board) : Board :=
  if bool_decide (currentSortType b = sortType) then b
  else
    let b1 := set_currentSortType sortType b in
    let b2 := clearBoard true false env b1 in
    renderBoard env b2.

(** *** The callbacks of [_handleViewAction]

    Each service call is followed by [.then(onFulfilled).catch(onRejected)]:
    a rejected call runs [onRejected] alone; a resolved call runs
    [onFulfilled], and [onRejected] after it when [onFulfilled] throws. *)

(** A mutator of the collection model followed by its notification, which
    reaches the board through [_handleModelEvent]. *)
Definition modelApply (mutate : Task -> list Task -> option (list Task))
    (env : Js.Env) (updateType : UpdateType) (update : Task) (b : Board)
    : Result :=
  match mutate update (tasksModel b) with
  | None => Threw ModelError b
  | Some tasks => handleModelEvent env updateType update (set_tasksModel tasks b)
  end.

Definition onFulfilled (req : Request) (response : Task) (env : Js.Env)
    (b : Board) : Result :=
  match reqAction req with
  | UPDATE_TASK => modelApply modelUpdateTask env (reqUpdateType req) response b
  | ADD_TASK => modelApply modelAddTask env (reqUpdateType req) response b
  | DELETE_TASK =>
      modelApply modelDeleteTask env (reqUpdateType req) (reqUpdate req) b
  end.

Definition onRejected (req : Request) (b : Board) : Result :=
  match reqAction req with
  | UPDATE_TASK | DELETE_TASK =>
      match taskPresenter b !! id (reqUpdate req) with
      | None => Threw TypeError b
      | Some h => Done (Presenter.setViewState h ABORTING b)
      end
  | ADD_TASK => Done (set_taskNewPresenter NewAborting b)
  end.

Definition settle (req : Request) (outcome : Settlement) (env : Js.Env)
    (b : Board) : Result :=
  match outcome with
  | Rejected => onRejected req b
  | Resolved response =>
      match onFulfilled req response env b with
      | Done b' => Done b'
      | Threw _ b' => onRejected req b'
      end
  end.

(** The board after [k] clicks on the load-more control. *)
Definition afterLoadMore (env : Js.Env) (k : nat) (b : Board) : Board :=
  Nat.iter k (handleLoadMoreButtonClick env) b.

(** *** [_getTasks] with arrays as objects

    [sort] reorders the array it is called on.  To see what [_getTasks]
    writes, arrays are kept in a store, named by their position in it:
    [getTasks()] of the model hands out the array the model holds,
    [filter[...]] allocates its result, and [sort] overwrites it. *)

Definition Array_filter (p : Task -> bool) (arr : nat) (st : Arrays)
    : nat * Arrays :=
  (length st, st ++ [List.filter p (default [] (st !! arr))]).

Definition Array_sort (compare : Task -> Task -> Z) (arr : nat) (st : Arrays)
    : nat * Arrays :=
  (arr, alter (Js.sort compare) arr st).

Definition getTasks_arrays (env : Js.Env) (filterType : FilterType)
    (sortType : SortType) (tasks : nat) (st : Arrays) : nat * Arrays :=
  let '(filtredTasks, st1) :=
    Array_filter (filterPredicate filterType env) tasks st in
  match sortType with
  | DATE_UP => Array_sort sortTasksUp filtredTasks st1
  | DATE_DOWN => Array_sort sortTasksDown filtredTasks st1
  | DEFAULT => (filtredTasks, st1)
  end.

(** *** The rest of the class *)

(** Modelled from the spec: [resetView] of [TaskPresenter] is not part of
    the sources at hand.  Per section 4.2 it forces the presenter back to
    [NORMAL], closed, and leaves the entity alone. *)
Definition resetView (h : Handle) (b : Board) : Board :=
  set_presenters
    (alter (fun p => mkTaskPresenter (boundTask p) NORMAL) h (presenters b)) b.

(** [createTask]: [_taskNewPresenter.init(callback)] opens the creation
    form. *)
Definition createTask (b : Board) : Board := set_taskNewPresenter Drafting b.

(** [Object.values(this._taskPresenter).forEach(resetView)] *)
Definition resetAll (handles : list Handle) (b : Board) : Board :=
  foldr resetView b handles.

(** [_handleModeChange] *)
Definition handleModeChange (b : Board) : Board :=
  let b1 := set_taskNewPresenter Dismissed b in
  resetAll (map_to_list (taskPresenter b1)).*2 b1.

(** The board with what [init] and [destroy] touch outside of it: the two
    containers ([_boardComponent] in the page, [_taskListComponent] in the
    board) and the board's subscriptions to the two models. *)
Record Page := mkPage {
  board : Board;
  boardShown : bool;
  taskListShown : bool;
  observesTasks : bool;
  observesFilter : bool
}.



(** [destroy] *)
Definition Board_destroy (env : Js.Env) (pg : Page) : Page :=
  mkPage (clearBoard true true env (board pg)) false false false false.

(** Modelled from the spec: the observer lists of the two models are not
    part of the sources at hand.  A notification of the collection model
    reaches [_handleModelEvent] while the board is subscribed, and nothing
    otherwise. *)
Definition tasksModelNotifies (env : Js.Env) (updateType : UpdateType)
    (data : Task) (pg : Page) : Result :=
  if observesTasks pg then handleModelEvent env updateType data (board pg)
  else Done (board pg).

End BoardPresenter.

(** ** What is rendered *)

(** The task shown by a card of the task list. *)
Definition cardTask (b : Board) (h : Handle) : option Task :=
  presenters b !! h ≫= boundTask.

(** The materialized tasks: those shown in the task list, in order. *)
Definition materialized (b : Board) : list Task :=
  omap (cardTask b) (taskListComponent b).

(** The view state of the presenter registered for an id. *)
Definition viewStateOf (b : Board) (i : Id) : option ViewState :=
  taskPresenter b !! i ≫= fun h => viewState <$> presenters b !! h.

(** Whether the load-more control is on the page. *)
Definition loadMoreShown (b : Board) : bool :=
  bool_decide (loadMoreButtonComponent b = Some true).

(** The registry [_renderTasks] builds: each task's id is bound to the
    handle of the presenter made for it, later tasks overwriting earlier
    ones of the same id. *)
Fixpoint register (tasks : list Task) (base : Handle) (m : gmap Id Handle)
  : gmap Id Handle :=
  match tasks with
  | [] => m
  | task :: rest => register rest (S base) (<[id task := base]> m)
  end.

(** Every registered presenter exists in the store and has been rendered. *)
Definition registry_ok (b : Board) : Prop :=
  map_Forall (fun _ h => is_Some (cardTask b h)) (taskPresenter b).

(** Every card of the task list belongs to a registered presenter. *)
Definition cards_registered (b : Board) : Prop :=
  Forall (fun h => h ∈ (map_to_list (taskPresenter b)).*2) (taskListComponent b).

Global Instance registry_ok_dec (b : Board) : Decision (registry_ok b).
Proof. unfold registry_ok. apply _. Defined.

Global Instance cards_registered_dec (b : Board) : Decision (cards_registered b).
Proof. unfold cards_registered. apply _. Defined.

(** ** Collaborators for the examples

    The examples below run the board with these stand-ins for the parts
    that are taken as parameters above. *)

Module Sample.

(** The four categories section 4.1 defines, and every task for "all". *)
Definition filterPredicate (filterType : FilterType) (env : Js.Env)
    (task : Task) : bool :=
  match filterType with
  | ALL => true
  | OVERDUE => isTaskExpired env (dueDate (data task))
  | TODAY => isTaskExpiringToday env (dueDate (data task))
  | FAVORITES => isFavorite (data task)
  | ARCHIVE => isArchive (data task)
  end.

Definition dueTime (task : Task) : option Z :=
  dueDate (data task) ≫= Js.getTime.

(** Comparators by due time that leave tasks without one where they are. *)
Definition sortTasksUp (a b : Task) : Z :=
  match dueTime a, dueTime b with
  | Some x, Some y => (x - y)%Z
  | _, _ => 0%Z
  end.

Definition sortTasksDown (a b : Task) : Z :=
  match dueTime a, dueTime b with
  | Some x, Some y => (y - x)%Z
  | _, _ => 0%Z
  end.

(** A collection model: update and delete by id, add at the front. *)
Definition updateTask (update : Task) (tasks : list Task) : option (list Task) :=
  if existsb (fun t => bool_decide (id t = id update)) tasks
  then Some (map (fun t => if bool_decide (id t = id update) then update else t)
                 tasks)
  else None.

Definition addTask (update : Task) (tasks : list Task) : option (list Task) :=
  Some (update :: tasks).

Definition deleteTask (update : Task) (tasks : list Task) : option (list Task) :=
  if existsb (fun t => bool_decide (id t = id update)) tasks
  then Some (List.filter (fun t => negb (bool_decide (id t = id update))) tasks)
  else None.

Definition env : Js.Env := Js.mkEnv 1700000000000%Z (Js.fixedZone 0).

Definition plainTask (i : Id) : Task :=
  mkTask i (mkTaskData (Some "A"%string) None noRepeating (Some "black"%string)
                       false false).

Definition datedTask (i : Id) (t : Z) : Task :=
  mkTask i (mkTaskData (Some "B"%string) (Some (Js.mkDate (Some t))) noRepeating
                       (Some "black"%string) false false).

Definition tasks (n : nat) : list Task :=
  map (fun k => plainTask (Z.of_nat k)) (seq 1 n).

Definition dispatch := handleViewAction.
Definition notify := handleModelEvent filterPredicate sortTasksUp sortTasksDown env.
Definition settled (req : Request) (outcome : Settlement) : Board -> Result :=
  settle filterPredicate sortTasksUp sortTasksDown updateTask addTask
    deleteTask req outcome env.
Definition loadMore :=
  handleLoadMoreButtonClick filterPredicate sortTasksUp sortTasksDown env.

(** The board of [n] tasks after [init], while the tasks are loading. *)
Definition started (n : nat) : Board :=
  init filterPredicate sortTasksUp sortTasksDown env (newBoard (tasks n) ALL).

(** The first load: the INIT event (its payload is not read). *)
Definition loading (n : nat) : Result :=
  notify INIT (plainTask 0%Z) (started n).

(** What INIT renders from, and what it renders. *)
Definition unrendered (n : nat) : Board :=
  set_loadingComponent false (set_isLoading false (started n)).

Definition loaded (n : nat) : Board :=
  renderBoard filterPredicate sortTasksUp sortTasksDown env (unrendered n).

(** Ten tasks are loaded and task 8 is being saved when a new task 11 is
    confirmed by the service: the list is rendered again and task 8 is no
    longer among the eight that are shown. *)
Definition updateOf8 : Request := mkRequest UPDATE_TASK PATCH (plainTask 8%Z).
Definition addOf11 : Request := mkRequest ADD_TASK MINOR (plainTask 11%Z).

Definition savingWhileAdded : Result :=
  andThen (loading 10) (fun b =>
  andThen (dispatch UPDATE_TASK PATCH (plainTask 8%Z) b) (fun b =>
  andThen (dispatch ADD_TASK MINOR (plainTask 11%Z) b) (fun b =>
  settled addOf11 (Resolved (plainTask 11%Z)) b))).

(** Eight tasks are loaded and the service confirms that task 1 is
    deleted. *)
Definition deleteOf1 : Request := mkRequest DELETE_TASK MINOR (plainTask 1%Z).

Definition deletedOneOfEight : Result :=
  andThen (loading 8) (fun b =>
  andThen (dispatch DELETE_TASK MINOR (plainTask 1%Z) b) (fun b =>
  settled deleteOf1 (Resolved (plainTask 1%Z)) b)).

(** The board of that trace just before the MINOR event: the service has
    confirmed the deletion and the model has dropped task 1. *)
Definition beforeMinor : Board :=
  set_tasksModel
    (List.filter (fun t => negb (bool_decide (id t = 1%Z))) (tasks 8))
    (boardOf (dispatch DELETE_TASK MINOR (plainTask 1%Z) (loaded 8))).

(** The board in which task 8 has lost its presenter. *)
Definition staleBoard : Board := boardOf savingWhileAdded.

(** Ten tasks are loaded and task 3 is being saved. *)
Definition updateOf3 : Request := mkRequest UPDATE_TASK PATCH (plainTask 3%Z).
Definition saving3 : Board :=
  boardOf (dispatch UPDATE_TASK PATCH (plainTask 3%Z) (loaded 10)).

(** The service confirms the update of task 3 with a due date. *)
Definition confirmed3 : Task := datedTask 3 1700006399999.

(** The service answers the update of task 3 with a task of another id:
    one the collection does not hold, and one that is not on the page. *)
Definition unknown99 : Task := plainTask 99.
Definition unshown9 : Task := datedTask 9 1700006399999.

(** Ten tasks are loaded and task 3 is being deleted. *)
Definition deleteOf3 : Request := mkRequest DELETE_TASK MINOR (plainTask 3%Z).
Definition deleting3 : Board :=
  boardOf (dispatch DELETE_TASK MINOR (plainTask 3%Z) (loaded 10)).


(** Two tasks of the same id in one collection. *)
Definition twins : list Task := [plainTask 1%Z; datedTask 1 0].

(** Ten tasks are loaded and task 8 is being saved. *)
Definition saving8 : Board :=
  boardOf (dispatch UPDATE_TASK PATCH (plainTask 8%Z) (loaded 10)).

(** New York in the autumn of 2023: four hours behind UTC until daylight
    saving ends on 5 November at 06:00 UTC (02:00 local), five hours
    after. *)
Definition newYork2023 : Js.Zone :=
  Js.mkZone
    (fun t => if bool_decide (t < 1699164000000)%Z
              then (-14400000)%Z else (-18000000)%Z)
    (fun l => if bool_decide (l < 1699149600000)%Z
              then (-14400000)%Z else (-18000000)%Z).

(** Noon of 4 November 2023 in New York, and half past midnight of the
    5th, a day of 25 hours there. *)
Definition nov4 : Js.Env := Js.mkEnv 1699113600000%Z newYork2023.
Definition nov5 : Js.Env := Js.mkEnv 1699158600000%Z newYork2023.

(** A random source that replays a list of draws, each moved into the
    range that was asked for. *)
Definition clampedRandom (a b : Z) (draws : list Z) : Z * list Z :=
  match draws with
  | [] => (a, [])
  | d :: rest => (Z.max a (Z.min b d), rest)
  end.

(** A random source that replays a list of draws, then zeros. *)
Definition getRandomInteger (a b : Z) (draws : list Z) : Z * list Z :=
  match draws with
  | [] => (0%Z, [])
  | d :: rest => (d, rest)
  end.

Definition COLORS : list string :=
  ["black"; "yellow"; "blue"; "green"; "pink"]%string.

End Sample.

(** * Properties *)

(** ** The date predicates *)

Lemma TimeClip_Some (v t : Z) :
  Js.TimeClip v = Some t -> t = v /\ (- Js.maxTime <= v <= Js.maxTime)%Z.
Proof. unfold Js.TimeClip. case_bool_decide; [|done]. by intros [= <-]. Qed.

Lemma TimeClip_in_range (v : Z) :
  (- Js.maxTime <= v <= Js.maxTime)%Z -> Js.TimeClip v = Some v.
Proof. intros H. unfold Js.TimeClip. by rewrite bool_decide_eq_true_2. Qed.

Lemma getCurrentDate_time (env : Js.Env) :
  Js.getTime (getCurrentDate env) =
  let localT := Js.LocalTime (Js.zone env) (Js.nowMs env) in
  Js.TimeClip (Js.UTC (Js.zone env)
                 (localT - localT mod Js.msPerDay + 86399999)%Z).
Proof. reflexivity. Qed.

(** The moment [getCurrentDate] returns is the last millisecond of the local
    day that holds the clock, read back as an instant. *)
Lemma getCurrentDate_end_of_day (env : Js.Env) (eod : Z) :
  Js.getTime (getCurrentDate env) = Some eod ->
  let localNow := Js.LocalTime (Js.zone env) (Js.nowMs env) in
  exists endOfDay : Z,
    ((endOfDay + 1) mod Js.msPerDay = 0)%Z /\
    (localNow <= endOfDay < localNow + Js.msPerDay)%Z /\
    eod = Js.UTC (Js.zone env) endOfDay.
Proof.
  rewrite getCurrentDate_time. cbv zeta. intros [-> _]%TimeClip_Some.
  set (l := Js.LocalTime (Js.zone env) (Js.nowMs env)).
  exists (l - l mod Js.msPerDay + 86399999)%Z. unfold Js.msPerDay.
  pose proof (Z.mod_pos_bound l 86400000 ltac:(lia)) as Hm.
  split_and!; [|lia|lia|reflexivity].
  replace (l - l mod 86400000 + 86399999 + 1)%Z
    with (l - l mod 86400000 + 1 * 86400000)%Z by lia.
  rewrite Z.mod_add by lia.
  rewrite Zminus_mod, Zmod_mod, Z.sub_diag. reflexivity.
Qed.

(** In a zone without daylight saving the end of the day is less than 24
    hours after the clock. *)
Lemma getCurrentDate_fixed_zone (env : Js.Env) (offset eod : Z) :
  Js.zone env = Js.fixedZone offset ->
  Js.getTime (getCurrentDate env) = Some eod ->
  (Js.nowMs env <= eod < Js.nowMs env + Js.msPerDay)%Z /\
  ((eod + offset + 1) mod Js.msPerDay = 0)%Z.
Proof.
  intros Hz (l & Hmod & Hl & ->)%getCurrentDate_end_of_day.
  rewrite Hz in *. unfold Js.UTC, Js.LocalTime in *. simpl in *.
  split; [lia|]. by replace (l - offset + offset + 1)%Z with (l + 1)%Z by lia.
Qed.

(** A clock so late that the end of its day is beyond the range of [Date]
    gives an invalid date, and nothing is overdue or due today. *)
Lemma getCurrentDate_invalid (env : Js.Env) (due : option Js.Date) :
  Js.getTime (getCurrentDate env) = None ->
  isTaskExpired env due = false /\ isTaskExpiringToday env due = false.
Proof.
  intros H. unfold isTaskExpired, isTaskExpiringToday.
  destruct due as [d|]; [|done]. cbv zeta. by rewrite H.
Qed.

(** C7: "now" is fixed at the end of the current date: the instant [eod] of
    the last millisecond of the local day that holds the clock.  Then
    [isTaskExpired] holds exactly for a due date that is present and
    strictly before [eod], [isTaskExpiringToday] exactly for one that is
    present and equal to [eod], and both are false for [null]. *)
Theorem C7_expired_and_today (env : Js.Env) (due : option Js.Date) (eod : Z) :
  Js.getTime (getCurrentDate env) = Some eod ->
  let localNow := Js.LocalTime (Js.zone env) (Js.nowMs env) in
  (exists endOfDay : Z,
     ((endOfDay + 1) mod Js.msPerDay = 0)%Z /\
     (localNow <= endOfDay < localNow + Js.msPerDay)%Z /\
     eod = Js.UTC (Js.zone env) endOfDay) /\
  (isTaskExpired env due = true <->
     exists d t, due = Some d /\ Js.getTime d = Some t /\ (t < eod)%Z) /\
  (isTaskExpiringToday env due = true <->
     exists d t, due = Some d /\ Js.getTime d = Some t /\ t = eod) /\
  isTaskExpired env None = false /\
  isTaskExpiringToday env None = false.
Proof.
  intros Heod localNow.
  split; [by apply getCurrentDate_end_of_day|].
  unfold isTaskExpired, isTaskExpiringToday. cbv zeta. rewrite Heod.
  repeat split.
  - destruct due as [[[t|]]|]; simpl; try discriminate.
    intros H%bool_decide_eq_true. eauto 6.
  - intros (d & t & -> & Ht & Hlt). rewrite Ht. simpl.
    apply bool_decide_eq_true. exact Hlt.
  - destruct due as [[[t|]]|]; simpl; try discriminate.
    intros H%bool_decide_eq_true. eexists _, _. repeat split. symmetry. exact H.
  - intros (d & t & -> & Ht & Heq). rewrite Ht. simpl.
    apply bool_decide_eq_true. symmetry. exact Heq.
Qed.

(** On 5 November 2023 in New York, a day of 25 hours, at half past
    midnight: the day ends at 1699246799999, 24.5 hours later, which is
    23:59:59.999 local time. *)
Lemma C7_expired_and_today_witness :
  let due := Some (Js.mkDate (Some 1699246799998%Z)) in
  Js.getTime (getCurrentDate Sample.nov5) = Some 1699246799999%Z /\
  (1699246799999 - Js.nowMs Sample.nov5 = 88199999)%Z /\
  (exists endOfDay : Z,
     ((endOfDay + 1) mod Js.msPerDay = 0)%Z /\
     1699246799999%Z = Js.UTC Sample.newYork2023 endOfDay) /\
  isTaskExpired Sample.nov5 due = true /\
  isTaskExpired Sample.nov5 None = false.
Proof.
  intros due.
  assert (H1 : Js.getTime (getCurrentDate Sample.nov5) = Some 1699246799999%Z)
    by (vm_compute; reflexivity).
  pose proof (C7_expired_and_today Sample.nov5 due 1699246799999%Z H1) as H.
  cbv zeta in H. destruct H as ((l & Hmod & _ & Hl) & Hexp & _ & Hnull & _).
  split_and!; [exact H1|reflexivity|by exists l| |exact Hnull].
  apply Hexp. exists (Js.mkDate (Some 1699246799998%Z)), 1699246799998%Z.
  split_and!; [reflexivity|reflexivity|lia].
Defined.

(** At the sample clock the day ends at 1700006399999 (UTC): a task due at
    that moment expires today and is not overdue, one due a millisecond
    earlier is overdue, one without a due date is neither. *)
Example expired_and_today_at_sample_clock :
  Js.getTime (getCurrentDate Sample.env) = Some 1700006399999%Z /\
  isTaskExpiringToday Sample.env (Some (Js.mkDate (Some 1700006399999%Z))) = true /\
  isTaskExpired Sample.env (Some (Js.mkDate (Some 1700006399999%Z))) = false /\
  isTaskExpired Sample.env (Some (Js.mkDate (Some 1700006399998%Z))) = true /\
  isTaskExpiringToday Sample.env (Some (Js.mkDate (Some 1700006399998%Z))) = false /\
  isTaskExpired Sample.env (Some (Js.mkDate None)) = false /\
  isTaskExpired Sample.env None = false.
Proof. vm_compute. repeat split. Qed.

(** ** The mock generator *)

Section MockFacts.

Context (Rng : Type) (getRandomInteger : Z -> Z -> Rng -> Z * Rng)
        (COLORS : list string).

Lemma generateTask_fields (env : Js.Env) (g : Rng) :
  let task := (generateTask Rng getRandomInteger COLORS env g).1 in
  dueDate task = (generateDate Rng getRandomInteger env g).1 /\
  (dueDate task <> None -> repeating task = noRepeating).
Proof.
  unfold generateTask, gbind, gret. simpl.
  destruct (generateDate Rng getRandomInteger env g) as [[d|] g1]; simpl.
  - repeat match goal with
           | |- context [let '(_, _) := ?e in _] => destruct e
           end; simpl.
    split; [reflexivity|]. intros _. reflexivity.
  - unfold generateRepeatingDays, gbind, gret.
    repeat match goal with
           | |- context [let '(_, _) := ?e in _] => destruct e
           end; simpl.
    split; [reflexivity|]. intros H. contradiction.
Qed.

(** C9: a task made by [generateTask] with a due date has all seven
    repeating flags false. *)
Theorem C9_generated_task_invariant (env : Js.Env) (g : Rng) :
  let task := (generateTask Rng getRandomInteger COLORS env g).1 in
  dueDate task <> None ->
  mo (repeating task) = false /\ tu (repeating task) = false /\
  we (repeating task) = false /\ th (repeating task) = false /\
  fr (repeating task) = false /\ sa (repeating task) = false /\
  su (repeating task) = false.
Proof.
  intros task H.
  destruct (generateTask_fields env g) as [_ Hrep].
  fold task in Hrep. rewrite (Hrep H). repeat split.
Qed.

End MockFacts.

Lemma C9_generated_task_invariant_witness :
  let task := (generateTask (list Z) Sample.getRandomInteger Sample.COLORS
                 Sample.env [1; 3; 2; 1; 0; 1]%Z).1 in
  dueDate task <> None /\
  (mo (repeating task) = false /\ tu (repeating task) = false /\
   we (repeating task) = false /\ th (repeating task) = false /\
   fr (repeating task) = false /\ sa (repeating task) = false /\
   su (repeating task) = false).
Proof.
  split.
  - vm_compute. discriminate.
  - apply (C9_generated_task_invariant (list Z) Sample.getRandomInteger
             Sample.COLORS Sample.env [1; 3; 2; 1; 0; 1]%Z).
    vm_compute. discriminate.
Defined.

(** ** Arrays *)

Lemma sort_insert_perm {A} (compare : A -> A -> Z) (x : A) (l : list A) :
  Js.sort_insert compare x l ≡ₚ x :: l.
Proof.
  induction l as [|y l IH]; simpl; [reflexivity|].
  case_bool_decide; [|reflexivity].
  rewrite IH. apply perm_swap.
Qed.

Lemma sort_perm {A} (compare : A -> A -> Z) (l : list A) :
  Js.sort compare l ≡ₚ l.
Proof.
  induction l as [|x l IH]; simpl; [reflexivity|].
  rewrite sort_insert_perm. by rewrite IH.
Qed.

Lemma length_sort {A} (compare : A -> A -> Z) (l : list A) :
  length (Js.sort compare l) = length l.
Proof. apply Permutation_length, sort_perm. Qed.

Lemma length_slice {A} (from to : nat) (l : list A) :
  length (Js.slice from to l) = Nat.min (to - from) (length l - from).
Proof. unfold Js.slice. by rewrite length_take, length_drop. Qed.

(** ** The store of presenters *)

Lemma renderTask_eq (task : Task) (b : Board) :
  renderTask task b =
  set_taskPresenter (<[id task := length (presenters b)]> (taskPresenter b))
    (set_taskListComponent (taskListComponent b ++ [length (presenters b)])
       (set_presenters (presenters b ++ [mkTaskPresenter (Some task) NORMAL]) b)).
Proof.
  unfold renderTask, Presenter.new, Presenter.init. destruct b; simpl.
  rewrite lookup_app_r by lia. rewrite Nat.sub_diag. simpl.
  rewrite insert_app_r_alt by lia. rewrite Nat.sub_diag. reflexivity.
Qed.

Lemma renderTasks_eq (tasks : list Task) (b : Board) :
  renderTasks tasks b =
  set_taskPresenter (register tasks (length (presenters b)) (taskPresenter b))
    (set_taskListComponent
       (taskListComponent b ++ seq (length (presenters b)) (length tasks))
       (set_presenters
          (presenters b ++ map (fun t => mkTaskPresenter (Some t) NORMAL) tasks)
          b)).
Proof.
  revert b. induction tasks as [|t ts IH]; intros b.
  - destruct b; simpl. by rewrite !app_nil_r.
  - change (renderTasks (t :: ts) b) with (renderTasks ts (renderTask t b)).
    rewrite IH, renderTask_eq. destruct b; simpl.
    rewrite length_app, Nat.add_1_r, <- !app_assoc. reflexivity.
Qed.

Lemma register_lookup_other (tasks : list Task) (base : Handle)
    (m : gmap Id Handle) (i : Id) :
  i ∉ id <$> tasks -> register tasks base m !! i = m !! i.
Proof.
  revert base m. induction tasks as [|t ts IH]; intros base m Hi; [done|].
  simpl. rewrite fmap_cons, not_elem_of_cons in Hi. destruct Hi as [Hne Hi].
  rewrite IH by done. by rewrite lookup_insert_ne.
Qed.

Lemma register_lookup (tasks : list Task) (base : Handle) (m : gmap Id Handle)
    (k : nat) (t : Task) :
  NoDup (id <$> tasks) -> tasks !! k = Some t ->
  register tasks base m !! id t = Some (base + k).
Proof.
  revert base m k. induction tasks as [|t0 ts IH]; intros base m k Hnd Hk;
    [done|].
  rewrite fmap_cons in Hnd. apply NoDup_cons in Hnd as [Hnotin Hnd].
  destruct k as [|k]; simpl in *.
  - injection Hk as ->. rewrite register_lookup_other by done.
    rewrite lookup_insert_eq. f_equal. lia.
  - rewrite (IH (S base) _ k) by done. f_equal. lia.
Qed.

Lemma register_lookup_inv (tasks : list Task) (base : Handle)
    (m : gmap Id Handle) (i : Id) (h : Handle) :
  register tasks base m !! i = Some h ->
  m !! i = Some h \/
  exists k t, tasks !! k = Some t /\ id t = i /\ h = base + k.
Proof.
  revert base m. induction tasks as [|t0 ts IH]; intros base m H; [by left|].
  simpl in H. apply IH in H as [H|(k & t & Hk & Hid & ->)].
  - destruct (decide (id t0 = i)) as [Heq|Hne].
    + rewrite <- Heq, lookup_insert_eq in H. injection H as <-.
      right. exists 0, t0. split_and!; [done|done|lia].
    + rewrite lookup_insert_ne in H by done. by left.
  - right. exists (S k), t. split_and!; [done|done|lia].
Qed.

Lemma register_size (tasks : list Task) (base : Handle) :
  NoDup (id <$> tasks) -> size (register tasks base ∅) = length tasks.
Proof.
  intros Hnd.
  assert (Hgen : forall (m : gmap Id Handle) base,
             (forall t, t ∈ tasks -> m !! id t = None) ->
             size (register tasks base m) = size m + length tasks).
  { clear base. induction tasks as [|t ts IH]; intros m base Hm; simpl; [lia|].
    rewrite fmap_cons in Hnd. apply NoDup_cons in Hnd as [Hnotin Hnd].
    rewrite IH; [|done|].
    - rewrite map_size_insert_None; [lia|]. apply Hm. left.
    - intros t' Ht'. rewrite lookup_insert_ne; [apply Hm; by right|].
      intros Heq. apply Hnotin. rewrite Heq. by apply list_elem_of_fmap_2. }
  rewrite Hgen; [by rewrite map_size_empty|]. intros. apply lookup_empty.
Qed.

Lemma cards_of_store (P : list TaskPresenter) (tasks : list Task) :
  omap (fun h => (P ++ map (fun t => mkTaskPresenter (Some t) NORMAL) tasks)
                   !! h ≫= boundTask)
       (seq (length P) (length tasks)) = tasks.
Proof.
  revert P. induction tasks as [|t ts IH]; intros P; [done|].
  simpl. rewrite lookup_app_r by lia. rewrite Nat.sub_diag. simpl.
  f_equal. specialize (IH (P ++ [mkTaskPresenter (Some t) NORMAL])).
  rewrite length_app, Nat.add_1_r, <- app_assoc in IH. exact IH.
Qed.

Lemma destroyAll_eq (handles : list Handle) (b : Board) :
  destroyAll handles b =
  set_taskListComponent
    (foldr (fun h l => filter (fun h' => h' ≠ h) l) (taskListComponent b) handles)
    b.
Proof.
  induction handles as [|h hs IH].
  - by destruct b.
  - change (destroyAll (h :: hs) b) with (Presenter.destroy h (destroyAll hs b)).
    rewrite IH. by destruct b.
Qed.

Lemma elem_of_destroyed (handles : list Handle) (l : list Handle) (h : Handle) :
  h ∈ foldr (fun h l => filter (fun h' => h' ≠ h) l) l handles <->
  h ∈ l /\ h ∉ handles.
Proof.
  induction handles as [|h0 hs IH]; simpl.
  - split; [intros H; split; [done|apply not_elem_of_nil]|by intros [? _]].
  - rewrite list_elem_of_filter, IH, not_elem_of_cons. tauto.
Qed.

Lemma elem_of_registry_values (m : gmap Id Handle) (h : Handle) :
  h ∈ (map_to_list m).*2 <-> exists i, m !! i = Some h.
Proof.
  rewrite list_elem_of_fmap. split.
  - intros ([i h'] & -> & Hin). exists i. by apply elem_of_map_to_list.
  - intros [i Hi]. exists (i, h). split; [done|]. by apply elem_of_map_to_list.
Qed.

Lemma take_min_length {A} (k : nat) (l : list A) :
  take (Nat.min (length l) k) l = take k l.
Proof.
  destruct (decide (k <= length l)) as [Hle|Hgt].
  - by replace (Nat.min (length l) k) with k by lia.
  - replace (Nat.min (length l) k) with (length l) by lia.
    by rewrite firstn_all, take_ge by lia.
Qed.

(** ** The board presenter *)

Section BoardFacts.

Context (fp : FilterType -> Js.Env -> Task -> bool)
        (up down : Task -> Task -> Z)
        (mUpdate mAdd mDelete : Task -> list Task -> option (list Task)).

Local Abbreviation shown t := (mkTaskPresenter (Some t) NORMAL).

Lemma getTasks_ext (env : Js.Env) (b b' : Board) :
  tasksModel b' = tasksModel b -> filterModel b' = filterModel b ->
  currentSortType b' = currentSortType b ->
  getTasks fp up down env b' = getTasks fp up down env b.
Proof. unfold getTasks. by intros -> -> ->. Qed.

Lemma getTasks_perm (env : Js.Env) (b : Board) :
  getTasks fp up down env b ≡ₚ filter_by fp (filterModel b) env (tasksModel b).
Proof.
  unfold getTasks. destruct (currentSortType b); auto using sort_perm.
Qed.

Lemma clearBoard_eq (r1 r2 : bool) (env : Js.Env) (b : Board) :
  clearBoard fp up down r1 r2 env b =
  mkBoard (tasksModel b) (filterModel b) (api b)
    (if r1 then TASK_AMOUNT_PER_STEP
     else Nat.min (length (getTasks fp up down env b)) (renderedTasksCount b))
    (if r2 then DEFAULT else currentSortType b)
    ∅ (isLoading b)
    ((fun c => (c.1, false)) <$> sortComponent b)
    ((fun _ => false) <$> loadMoreButtonComponent b)
    false false Dismissed (presenters b)
    (foldr (fun h l => filter (fun h' => h' ≠ h) l) (taskListComponent b)
           (map_to_list (taskPresenter b)).*2).
Proof.
  unfold clearBoard. rewrite destroyAll_eq. by destruct b, r1, r2.
Qed.

Lemma renderBoard_loading (env : Js.Env) (b : Board) :
  isLoading b = true -> renderBoard fp up down env b = set_loadingComponent true b.
Proof. unfold renderBoard. by intros ->. Qed.

Lemma renderBoard_eq (env : Js.Env) (b : Board) :
  isLoading b = false ->
  let vis := getTasks fp up down env b in
  let n := length vis in
  let window := take (renderedTasksCount b) vis in
  renderBoard fp up down env b =
  mkBoard (tasksModel b) (filterModel b) (api b) (renderedTasksCount b)
    (currentSortType b)
    (register window (length (presenters b)) (taskPresenter b))
    false
    (if n =? 0 then sortComponent b else Some (currentSortType b, true))
    (if renderedTasksCount b <? n then Some true else loadMoreButtonComponent b)
    (if n =? 0 then true else noTaskComponent b)
    (loadingComponent b) (taskNewPresenter b)
    (presenters b ++ map (fun t => shown t) window)
    (taskListComponent b ++ seq (length (presenters b)) (length window)).
Proof.
  intros Hl vis n window. unfold renderBoard. rewrite Hl.
  fold vis. fold n. destruct (n =? 0) eqn:Hn.
  - apply Nat.eqb_eq in Hn. subst window.
    assert (vis = []) as -> by (by apply length_zero_iff_nil).
    rewrite take_nil. simpl. rewrite !app_nil_r.
    destruct (renderedTasksCount b <? n) eqn:Hc;
      [apply Nat.ltb_lt in Hc; lia|].
    destruct b; simpl in *. by subst.
  - unfold Js.slice. rewrite drop_0, Nat.sub_0_r, renderTasks_eq.
    change (renderedTasksCount (renderSort b)) with (renderedTasksCount b).
    assert (take (Nat.min n (renderedTasksCount b)) vis = window) as ->
      by apply take_min_length.
    clearbody window n. clear vis.
    destruct b; simpl in *. subst.
    by destruct (_ <? _).
Qed.

Lemma handleLoadMoreButtonClick_eq (env : Js.Env) (b : Board) :
  let vis := getTasks fp up down env b in
  let n := length vis in
  let count := Nat.min n (renderedTasksCount b + TASK_AMOUNT_PER_STEP) in
  let revealed := Js.slice (renderedTasksCount b) count vis in
  handleLoadMoreButtonClick fp up down env b =
  mkBoard (tasksModel b) (filterModel b) (api b) count (currentSortType b)
    (register revealed (length (presenters b)) (taskPresenter b))
    (isLoading b) (sortComponent b)
    (if n <=? count then (fun _ => false) <$> loadMoreButtonComponent b
     else loadMoreButtonComponent b)
    (noTaskComponent b) (loadingComponent b) (taskNewPresenter b)
    (presenters b ++ map (fun t => shown t) revealed)
    (taskListComponent b ++ seq (length (presenters b)) (length revealed)).
Proof.
  intros vis n count revealed. unfold handleLoadMoreButtonClick.
  fold vis. fold n. fold count. fold revealed. rewrite renderTasks_eq.
  destruct b; simpl. by destruct (n <=? count).
Qed.

(** *** Pagination *)

Lemma loadMore_iter (env : Js.Env) (c : Board) (k : nat) :
  isLoading c = false ->
  renderedTasksCount c = TASK_AMOUNT_PER_STEP ->
  taskListComponent c = [] ->
  loadMoreButtonComponent c <> Some true ->
  let vis := getTasks fp up down env c in
  let n := length vis in
  let m := Nat.min n (8 * (k + 1)) in
  let b := afterLoadMore fp up down env k (renderBoard fp up down env c) in
  getTasks fp up down env b = vis /\
  presenters b = presenters c ++ map (fun t => shown t) (take m vis) /\
  taskListComponent b = seq (length (presenters c)) m /\
  Nat.min n (renderedTasksCount b) = m /\
  (loadMoreButtonComponent b = Some true <-> m < n).
Proof.
  intros Hl Hc Hd Hb vis n. induction k as [|k IH]; intros m b.
  - subst b. unfold afterLoadMore. simpl Nat.iter.
    rewrite renderBoard_eq by done. fold vis. fold n. simpl.
    rewrite Hc, Hd. unfold TASK_AMOUNT_PER_STEP. subst m.
    change (8 * (0 + 1)) with 8.
    split_and!.
    + by apply getTasks_ext.
    + unfold n. by rewrite take_min_length.
    + simpl. rewrite length_take. fold n. f_equal. lia.
    + reflexivity.
    + destruct (8 <? n) eqn:H8.
      * apply Nat.ltb_lt in H8. split; [lia|done].
      * apply Nat.ltb_ge in H8. split; [done|lia].
  - cbv zeta in IH. destruct IH as (Hvis & Hp & Ht & Hm & Hbtn).
    set (b0 := afterLoadMore fp up down env k (renderBoard fp up down env c)) in *.
    assert (b = handleLoadMoreButtonClick fp up down env b0) as -> by done.
    rewrite handleLoadMoreButtonClick_eq. rewrite Hvis. fold n. simpl.
    unfold TASK_AMOUNT_PER_STEP.
    set (cur := renderedTasksCount b0) in *.
    set (cur' := Nat.min n (cur + 8)).
    assert (Hm' : m = cur') by (subst m cur'; lia).
    assert (Hsl : take (Nat.min n (8 * (k + 1))) vis ++ Js.slice cur cur' vis
                  = take m vis).
    { unfold Js.slice. destruct (decide (cur <= n)) as [Hle|Hgt].
      - replace (Nat.min n (8 * (k + 1))) with cur by lia.
        rewrite take_take_drop. f_equal. lia.
      - replace (cur' - cur) with 0 by lia. rewrite take_0, app_nil_r.
        f_equal. lia. }
    split_and!.
    + etrans; [|exact Hvis]. by apply getTasks_ext.
    + rewrite Hp, <- app_assoc, <- map_app. by rewrite Hsl.
    + rewrite Ht.
      replace (length (presenters b0))
        with (length (presenters c) + Nat.min n (8 * (k + 1)))
        by (rewrite Hp, length_app, length_map, length_take; fold n; lia).
      rewrite <- seq_app. f_equal.
      rewrite length_slice. fold n. lia.
    + lia.
    + destruct (n <=? cur') eqn:Hn.
      * apply Nat.leb_le in Hn. split; [|lia].
        by destruct (loadMoreButtonComponent b0).
      * apply Nat.leb_gt in Hn. rewrite Hbtn. lia.
Qed.

(** A clear that resets the cursor leaves the state the pagination starts
    from: the cursor at the page size, an empty task list (when every card
    was registered) and no load-more control on the page. *)
Lemma clearBoard_reset_fresh (r2 : bool) (env : Js.Env) (b : Board) :
  cards_registered b ->
  let c := clearBoard fp up down true r2 env b in
  isLoading c = isLoading b /\
  renderedTasksCount c = TASK_AMOUNT_PER_STEP /\
  taskListComponent c = [] /\
  loadMoreButtonComponent c <> Some true.
Proof.
  intros Hreg c. subst c. rewrite clearBoard_eq. simpl. split_and!; try done.
  - apply elem_of_nil_inv. intros h. rewrite elem_of_destroyed.
    intros [Hin Hnot]. unfold cards_registered in Hreg.
    rewrite Forall_forall in Hreg. by apply Hnot, Hreg.
  - by destruct (loadMoreButtonComponent b).
Qed.

(** C3: with page size 8, after [k] calls of [loadMore] on a visible set
    of size [n] the count of materialized tasks is [min n (8 * (k + 1))]
    (they are the first that many of the visible sequence); one more call
    renders only the newly revealed slice, after the cards that are there;
    and the load-more control is on the page exactly when fewer than [n]
    tasks are materialized. *)
Theorem C3_pagination (env : Js.Env) (c : Board) (k : nat) :
  isLoading c = false ->
  renderedTasksCount c = TASK_AMOUNT_PER_STEP ->
  taskListComponent c = [] ->
  loadMoreButtonComponent c <> Some true ->
  let vis := getTasks fp up down env c in
  let n := length vis in
  let b := afterLoadMore fp up down env k (renderBoard fp up down env c) in
  let b' := handleLoadMoreButtonClick fp up down env b in
  materialized b = take (8 * (k + 1)) vis /\
  length (materialized b) = Nat.min n (8 * (k + 1)) /\
  (loadMoreShown b = true <-> length (materialized b) < n) /\
  materialized b' =
    materialized b
    ++ Js.slice (Nat.min n (8 * (k + 1))) (Nat.min n (8 * (k + 2))) vis /\
  (exists newCards,
      taskListComponent b' = taskListComponent b ++ newCards /\
      omap (cardTask b') newCards =
        Js.slice (Nat.min n (8 * (k + 1))) (Nat.min n (8 * (k + 2))) vis) /\
  presenters b `prefix_of` presenters b'.
Proof.
  intros Hl Hc Hd Hb vis n b b'.
  destruct (loadMore_iter env c k Hl Hc Hd Hb) as (Hvis & Hp & Ht & Hm & Hbtn).
  destruct (loadMore_iter env c (S k) Hl Hc Hd Hb)
    as (Hvis' & Hp' & Ht' & Hm' & Hbtn').
  fold vis in Hvis, Hp, Ht, Hm, Hbtn, Hvis', Hp', Ht', Hm', Hbtn'.
  fold n in Hp, Ht, Hm, Hbtn, Hp', Ht', Hm', Hbtn'.
  fold b in Hvis, Hp, Ht, Hm, Hbtn.
  change (afterLoadMore fp up down env (S k) (renderBoard fp up down env c)) with b'
    in Hvis', Hp', Ht', Hm', Hbtn'.
  replace (8 * (S k + 1)) with (8 * (k + 2)) in * by lia.
  set (m := Nat.min n (8 * (k + 1))) in *.
  set (m' := Nat.min n (8 * (k + 2))) in *.
  assert (Hmat : materialized b = take m vis).
  { unfold materialized, cardTask. rewrite Ht, Hp.
    etrans; [|apply (cards_of_store (presenters c) (take m vis))].
    rewrite length_take. fold n. do 2 f_equal. lia. }
  assert (Hmat' : materialized b' = take m' vis).
  { unfold materialized, cardTask. rewrite Ht', Hp'.
    etrans; [|apply (cards_of_store (presenters c) (take m' vis))].
    rewrite length_take. fold n. do 2 f_equal. lia. }
  assert (Hsplit : take m' vis = take m vis ++ Js.slice m m' vis).
  { unfold Js.slice. rewrite take_take_drop. f_equal. lia. }
  assert (Hlen : length (materialized b) = m).
  { rewrite Hmat, length_take. fold n. lia. }
  split_and!.
  - rewrite Hmat. subst m. apply take_min_length.
  - exact Hlen.
  - rewrite Hlen. unfold loadMoreShown. by rewrite bool_decide_eq_true.
  - by rewrite Hmat', Hmat.
  - exists (seq (length (presenters c) + m) (m' - m)). split.
    + rewrite Ht', Ht, <- seq_app. f_equal. lia.
    + unfold cardTask. rewrite Hp', Hsplit, map_app, app_assoc.
      etrans; [|apply (cards_of_store
                         (presenters c ++ map (fun t => shown t) (take m vis))
                         (Js.slice m m' vis))].
      rewrite length_app, length_map, length_take, length_slice. fold n.
      do 2 f_equal; lia.
  - rewrite Hp, Hp', Hsplit, map_app, app_assoc. by eexists.
Qed.

(** *** Dispatch of user actions *)

Lemma registry_ok_lookup (b : Board) (i : Id) (h : Handle) :
  registry_ok b -> taskPresenter b !! i = Some h ->
  exists p t, presenters b !! h = Some p /\ boundTask p = Some t.
Proof.
  intros Hok Hi. destruct (Hok i h Hi) as [t Ht]. unfold cardTask in Ht.
  destruct (presenters b !! h) as [p|] eqn:Hp; [|done]. by exists p, t.
Qed.

Lemma viewStateOf_setViewState (b : Board) (i : Id) (h : Handle)
    (state : ViewState) :
  registry_ok b -> taskPresenter b !! i = Some h ->
  viewStateOf (Presenter.setViewState h state b) i = Some state.
Proof.
  intros Hok Hi. destruct (registry_ok_lookup b i h Hok Hi) as (p & t & Hp & _).
  unfold viewStateOf, Presenter.setViewState.
  cbn [taskPresenter presenters set_presenters].
  rewrite Hi. cbn [mbind option_bind]. by rewrite list_lookup_alter_eq, Hp.
Qed.

Lemma registry_ok_setViewState (b : Board) (h : Handle) (state : ViewState) :
  registry_ok b -> registry_ok (Presenter.setViewState h state b).
Proof.
  intros Hok i h' Hi.
  assert (Hi' : taskPresenter b !! i = Some h') by (by destruct b).
  destruct (registry_ok_lookup b i h' Hok Hi') as (p & t & Hp & Ht).
  exists t. unfold cardTask, Presenter.setViewState.
  cbn [presenters set_presenters].
  destruct (decide (h = h')) as [->|Hne].
  - by rewrite list_lookup_alter_eq, Hp.
  - by rewrite list_lookup_alter_ne, Hp.
Qed.

Lemma registry_ok_set_api (b : Board) (calls : list Request) :
  registry_ok b -> registry_ok (set_api calls b).
Proof. by destruct b. Qed.

(** C1, as the code has it: when the service rejects the call of a
    dispatched UPDATE right after the dispatch, the collection is as it was
    before the dispatch, the presenter registered for the task's id is in
    the ABORTING state, and the only call made to the service is the one of
    the dispatch: nothing is retried.  When the rejection arrives in a later
    state, the callback writes neither to the collection nor to the
    service; it sets the presenter then registered for the id to ABORTING
    if there is one, and otherwise throws a TypeError and leaves the whole
    state as it is, so that no presenter ends in the ABORTING state. *)
Theorem C1_update_rejected (env : Js.Env) (updateType : UpdateType)
    (update : Task) (b b1 : Board) :
  registry_ok b ->
  handleViewAction UPDATE_TASK updateType update b = Done b1 ->
  let req := mkRequest UPDATE_TASK updateType update in
  api b1 = api b ++ [req] /\
  viewStateOf b1 (id update) = Some SAVING /\
  (exists b2,
      settle fp up down mUpdate mAdd mDelete req Rejected env b1 = Done b2 /\
      tasksModel b2 = tasksModel b /\
      taskPresenter b2 = taskPresenter b /\
      viewStateOf b2 (id update) = Some ABORTING /\
      api b2 = api b ++ [req]) /\
  (forall later,
      registry_ok later -> is_Some (taskPresenter later !! id update) ->
      exists b2,
        settle fp up down mUpdate mAdd mDelete req Rejected env later = Done b2 /\
        tasksModel b2 = tasksModel later /\
        taskPresenter b2 = taskPresenter later /\
        viewStateOf b2 (id update) = Some ABORTING /\
        api b2 = api later) /\
  (forall later,
      taskPresenter later !! id update = None ->
      settle fp up down mUpdate mAdd mDelete req Rejected env later
      = Threw TypeError later).
Proof.
  intros Hok Hd req. unfold handleViewAction in Hd.
  destruct (taskPresenter b !! id update) as [h|] eqn:Hh; [|discriminate].
  injection Hd as <-.
  set (b0 := Presenter.setViewState h SAVING b).
  assert (Hok0 : registry_ok b0) by (by apply registry_ok_setViewState).
  assert (Hh0 : taskPresenter b0 !! id update = Some h) by (by destruct b).
  split_and!.
  - by destruct b.
  - change (viewStateOf (set_api (api b0 ++ [req]) b0) (id update))
      with (viewStateOf b0 (id update)).
    by apply viewStateOf_setViewState.
  - unfold settle, onRejected, req. cbn [reqAction reqUpdate].
    change (taskPresenter (set_api ?calls b0)) with (taskPresenter b0).
    rewrite Hh0. eexists. split; [reflexivity|]. split_and!.
    + by destruct b.
    + by destruct b.
    + apply viewStateOf_setViewState; [|done]. by apply registry_ok_set_api.
    + by destruct b.
  - intros later Hlater [h' Hh']. unfold settle, onRejected, req.
    cbn [reqAction reqUpdate]. rewrite Hh'.
    eexists. split; [reflexivity|]. split_and!; try (by destruct later).
    by apply viewStateOf_setViewState.
  - intros later Hnone. unfold settle, onRejected, req.
    cbn [reqAction reqUpdate]. by rewrite Hnone.
Qed.

(** C2, as the code has it: an UPDATE or DELETE action, a PATCH
    notification and the rejection callback of an UPDATE or DELETE call
    that name an id with no registered presenter each throw a TypeError and
    leave the whole state as it was (no view is changed, no call is made to
    the service); ADD actions and MINOR, MAJOR and INIT notifications do
    not look a presenter up and return. *)
Theorem C2_unregistered_id_throws (env : Js.Env) (update : Task) (b : Board) :
  taskPresenter b !! id update = None ->
  (forall updateType,
      handleViewAction UPDATE_TASK updateType update b = Threw TypeError b) /\
  (forall updateType,
      handleViewAction DELETE_TASK updateType update b = Threw TypeError b) /\
  handleModelEvent fp up down env PATCH update b = Threw TypeError b /\
  (forall updateType,
      settle fp up down mUpdate mAdd mDelete
        (mkRequest UPDATE_TASK updateType update) Rejected env b
      = Threw TypeError b) /\
  (forall updateType,
      settle fp up down mUpdate mAdd mDelete
        (mkRequest DELETE_TASK updateType update) Rejected env b
      = Threw TypeError b) /\
  (forall updateType,
      exists b', handleViewAction ADD_TASK updateType update b = Done b') /\
  (forall updateType, updateType <> PATCH ->
      exists b', handleModelEvent fp up down env updateType update b = Done b').
Proof.
  intros Hnone. split_and!; intros;
    try (simpl; unfold onRejected; simpl; by rewrite Hnone).
  - simpl. eauto.
  - destruct updateType; simpl; eauto. done.
Qed.

(** *** Model events *)

Lemma init_rendered (h : Handle) (task : Task) (b : Board) :
  is_Some (cardTask b h) ->
  Presenter.init h task b
  = set_presenters (<[h := shown task]> (presenters b)) b.
Proof.
  intros [t Ht]. unfold cardTask in Ht. unfold Presenter.init.
  destruct (presenters b !! h) as [p|]; [|done]. simpl in Ht. by rewrite Ht.
Qed.

(** C4, as the code has it: a MAJOR event and a change to another sort
    mode set the cursor to the page size; a change to the current sort mode
    does nothing; PATCH and INIT leave the cursor as it is; a MINOR event
    sets it to the least of the visible count and its old value, so it
    never grows and it shrinks when fewer tasks are visible than were
    counted; a click on the load-more control sets it to the least of the
    visible count and the old value plus the page size, which is no less
    than the old value when that was at most the visible count. *)
Theorem C4_cursor_updates (env : Js.Env) (data : Task) (b : Board) :
  let n := length (getTasks fp up down env b) in
  (exists b', handleModelEvent fp up down env MAJOR data b = Done b' /\
              renderedTasksCount b' = TASK_AMOUNT_PER_STEP) /\
  (forall sortType, sortType <> currentSortType b ->
      renderedTasksCount (handleSortTypeChange fp up down env sortType b)
      = TASK_AMOUNT_PER_STEP) /\
  handleSortTypeChange fp up down env (currentSortType b) b = b /\
  (forall b', handleModelEvent fp up down env PATCH data b = Done b' ->
              renderedTasksCount b' = renderedTasksCount b) /\
  (exists b', handleModelEvent fp up down env INIT data b = Done b' /\
              renderedTasksCount b' = renderedTasksCount b) /\
  (exists b', handleModelEvent fp up down env MINOR data b = Done b' /\
              renderedTasksCount b' = Nat.min n (renderedTasksCount b) /\
              renderedTasksCount b' <= renderedTasksCount b) /\
  renderedTasksCount (handleLoadMoreButtonClick fp up down env b)
  = Nat.min n (renderedTasksCount b + TASK_AMOUNT_PER_STEP) /\
  (renderedTasksCount b <= n ->
   renderedTasksCount b
   <= renderedTasksCount (handleLoadMoreButtonClick fp up down env b)).
Proof.
  assert (Hrender : forall c, renderedTasksCount (renderBoard fp up down env c)
                              = renderedTasksCount c).
  { intros c. destruct (isLoading c) eqn:Hl.
    - by rewrite renderBoard_loading.
    - by rewrite renderBoard_eq. }
  intros n. split_and!.
  - eexists. split; [reflexivity|]. by rewrite Hrender, clearBoard_eq.
  - intros sortType Hne. unfold handleSortTypeChange.
    rewrite bool_decide_eq_false_2 by done.
    by rewrite Hrender, clearBoard_eq.
  - unfold handleSortTypeChange. by rewrite bool_decide_eq_true_2.
  - intros b'. unfold handleModelEvent.
    destruct (taskPresenter b !! id data) as [h|]; [|done].
    intros [= <-]. unfold Presenter.init.
    destruct (presenters b !! h) as [p|]; [|done].
    by destruct (boundTask p).
  - eexists. split; [reflexivity|]. by rewrite Hrender.
  - eexists. split; [reflexivity|]. rewrite Hrender, clearBoard_eq. simpl.
    fold n. split; [done|lia].
  - by rewrite handleLoadMoreButtonClick_eq.
  - intros Hle. rewrite handleLoadMoreButtonClick_eq. simpl. fold n. lia.
Qed.

(** *** The filter and sort pipeline *)

Lemma filter_partition_perm {A} (p : A -> bool) (l : list A) :
  List.filter p l ++ List.filter (fun x => negb (p x)) l ≡ₚ l.
Proof.
  induction l as [|x l IH]; simpl; [reflexivity|].
  destruct (p x); simpl.
  - by rewrite IH.
  - rewrite <- Permutation_middle. by rewrite IH.
Qed.

Lemma elem_of_getTasks (env : Js.Env) (b : Board) (t : Task) :
  t ∈ getTasks fp up down env b <->
  t ∈ tasksModel b /\ fp (filterModel b) env t = true.
Proof.
  rewrite getTasks_perm. unfold filter_by.
  rewrite !list_elem_of_In. apply filter_In.
Qed.

Lemma getTasks_arrays_run (env : Js.Env) (b : Board) (st : Arrays)
    (tasks : nat) :
  st !! tasks = Some (tasksModel b) ->
  let out :=
    getTasks_arrays fp up down env (filterModel b) (currentSortType b) tasks st in
  out.1 = length st /\
  out.2 !! out.1 = Some (getTasks fp up down env b) /\
  length out.2 = S (length st) /\
  (forall a, a < length st -> out.2 !! a = st !! a).
Proof.
  intros Hst out. subst out.
  unfold getTasks_arrays, Array_filter, Array_sort, getTasks, filter_by.
  rewrite Hst. cbn [default from_option].
  set (kept := List.filter _ _).
  destruct (currentSortType b); cbn [fst snd].
  - split_and!; [done| |by rewrite length_app, Nat.add_1_r|].
    + rewrite lookup_app_r by lia. by rewrite Nat.sub_diag.
    + intros a Ha. by rewrite lookup_app_l.
  - split_and!; [done| | |].
    + rewrite list_lookup_alter_eq, lookup_app_r by lia.
      by rewrite Nat.sub_diag.
    + by rewrite length_alter, length_app, Nat.add_1_r.
    + intros a Ha. rewrite list_lookup_alter_ne by lia. by rewrite lookup_app_l.
  - split_and!; [done| | |].
    + rewrite list_lookup_alter_eq, lookup_app_r by lia.
      by rewrite Nat.sub_diag.
    + by rewrite length_alter, length_app, Nat.add_1_r.
    + intros a Ha. rewrite list_lookup_alter_ne by lia. by rewrite lookup_app_l.
Qed.

(** C8: [_getTasks] keeps no state and gives the same sequence each time.
    Run on a store of arrays that holds the model's collection, it writes
    to no array that was there (the model's included) and returns the
    sequence [getTasks] computes; run again on the store it leaves, it
    returns the same sequence; that sequence is a function of the
    collection, the filter, the sort mode and "now" alone, and rendering
    does not change it; and every task of the collection is either in it
    (the predicate holds) or left out (the predicate fails), never both. *)
Theorem C8_pipeline_idempotent (env : Js.Env) (b : Board) (st : Arrays)
    (tasks : nat) :
  st !! tasks = Some (tasksModel b) ->
  let run :=
    getTasks_arrays fp up down env (filterModel b) (currentSortType b) tasks in
  let visible := getTasks fp up down env b in
  let excluded :=
    List.filter (fun t => negb (fp (filterModel b) env t)) (tasksModel b) in
  let first := run st in
  let second := run first.2 in
  first.2 !! first.1 = Some visible /\
  (forall a, a < length st -> first.2 !! a = st !! a) /\
  second.2 !! second.1 = Some visible /\
  (forall b', tasksModel b' = tasksModel b -> filterModel b' = filterModel b ->
              currentSortType b' = currentSortType b ->
              getTasks fp up down env b' = visible) /\
  getTasks fp up down env (renderBoard fp up down env b) = visible /\
  getTasks fp up down env (handleLoadMoreButtonClick fp up down env b) = visible /\
  (forall t, t ∈ tasksModel b ->
             (t ∈ visible /\ ~ t ∈ excluded) \/ (~ t ∈ visible /\ t ∈ excluded)) /\
  visible ++ excluded ≡ₚ tasksModel b.
Proof.
  intros Hst run visible excluded first second.
  destruct (getTasks_arrays_run env b st tasks Hst) as (Hloc & Hres & Hlen & Hold).
  fold run in Hloc, Hres, Hlen, Hold. fold visible in Hres.
  fold first in Hloc, Hres, Hlen, Hold.
  assert (Hst' : first.2 !! tasks = Some (tasksModel b)).
  { rewrite Hold; [done|]. by eapply lookup_lt_Some. }
  destruct (getTasks_arrays_run env b _ tasks Hst') as (_ & Hres' & _ & _).
  split_and!; try done.
  - intros b' H1 H2 H3. by apply getTasks_ext.
  - apply getTasks_ext.
    + destruct (isLoading b) eqn:Hl;
        [by rewrite renderBoard_loading|by rewrite renderBoard_eq].
    + destruct (isLoading b) eqn:Hl;
        [by rewrite renderBoard_loading|by rewrite renderBoard_eq].
    + destruct (isLoading b) eqn:Hl;
        [by rewrite renderBoard_loading|by rewrite renderBoard_eq].
  - apply getTasks_ext; by rewrite handleLoadMoreButtonClick_eq.
  - intros t Ht. unfold visible, excluded.
    destruct (fp (filterModel b) env t) eqn:Hp.
    + left. split; [by apply elem_of_getTasks|].
      intros [_ Hex]%list_elem_of_In%filter_In. by rewrite Hp in Hex.
    + right. split.
      * intros [_ Hex]%elem_of_getTasks. congruence.
      * apply list_elem_of_In, filter_In. split; [by apply list_elem_of_In|].
        by rewrite Hp.
  - unfold visible. rewrite getTasks_perm. apply filter_partition_perm.
Qed.

(** *** The registry of presenters *)

Lemma cleared_cards (b : Board) (h : Handle) :
  h ∈ foldr (fun h l => filter (fun h' => h' ≠ h) l) (taskListComponent b)
            (map_to_list (taskPresenter b)).*2 <->
  h ∈ taskListComponent b /\ forall i, taskPresenter b !! i <> Some h.
Proof.
  rewrite elem_of_destroyed, elem_of_registry_values.
  split; intros [Hin Hnot]; (split; [done|]).
  - intros i Hi. apply Hnot. by exists i.
  - intros [i Hi]. by apply (Hnot i).
Qed.

Lemma cleared_cards_nil (b : Board) :
  cards_registered b ->
  foldr (fun h l => filter (fun h' => h' ≠ h) l) (taskListComponent b)
        (map_to_list (taskPresenter b)).*2 = [].
Proof.
  intros Hreg. apply elem_of_nil_inv. intros h. rewrite elem_of_destroyed.
  intros [Hin Hnot]. unfold cards_registered in Hreg.
  rewrite Forall_forall in Hreg. by apply Hnot, Hreg.
Qed.

(** C10: [_clearBoard] dismisses the creation presenter, destroys every
    registered presenter (none of their cards stays in the list) and
    empties the registry; after the render that follows, the registry
    binds the id of each task of the materialized window, and no other id,
    to a presenter made by this render and showing that task: one
    presenter per materialized task. *)
Theorem C10_registry_after_render (env : Js.Env) (r1 r2 : bool) (b : Board) :
  let c := clearBoard fp up down r1 r2 env b in
  let b' := renderBoard fp up down env c in
  let vis := getTasks fp up down env c in
  let window :=
    if isLoading b then [] else take (renderedTasksCount c) vis in
  let base := length (presenters b) in
  NoDup (id <$> vis) ->
  (taskPresenter c = ∅ /\ taskNewPresenter c = Dismissed /\
   forall i h, taskPresenter b !! i = Some h -> h ∉ taskListComponent c) /\
  (forall i h, taskPresenter b' !! i = Some h <->
               exists k t, window !! k = Some t /\ id t = i /\ h = base + k) /\
  size (taskPresenter b') = length window /\
  (forall k t, window !! k = Some t -> cardTask b' (base + k) = Some t) /\
  (cards_registered b ->
   materialized b' = window /\
   taskListComponent b' = seq base (length window)).
Proof.
  intros c b' vis window base Hnd.
  assert (Hc : c = clearBoard fp up down r1 r2 env b) by done.
  rewrite clearBoard_eq in Hc.
  assert (Hreg : taskPresenter c = ∅) by (by rewrite Hc).
  assert (Hpres : presenters c = presenters b) by (by rewrite Hc).
  assert (Hload : isLoading c = isLoading b) by (by rewrite Hc).
  assert (Hcards : taskListComponent c
                   = foldr (fun h l => filter (fun h' => h' ≠ h) l)
                       (taskListComponent b)
                       (map_to_list (taskPresenter b)).*2)
    by (by rewrite Hc).
  split.
  { split_and!; [done|by rewrite Hc|].
    intros i h Hi. rewrite Hcards, cleared_cards. intros [_ Hnot].
    by apply (Hnot i). }
  assert (Hb' : taskPresenter b' = register window base ∅ /\
                presenters b' = presenters b ++ map (fun t => shown t) window /\
                taskListComponent b'
                = taskListComponent c ++ seq base (length window)).
  { subst b' window. destruct (isLoading b) eqn:Hl.
    - rewrite renderBoard_loading by congruence. simpl.
      by rewrite Hreg, Hpres, !app_nil_r.
    - rewrite renderBoard_eq by congruence. simpl. fold vis.
      by rewrite Hreg, Hpres. }
  destruct Hb' as (Hr' & Hp' & Ht').
  assert (Hndw : NoDup (id <$> window)).
  { subst window. destruct (isLoading b); [constructor|].
    rewrite fmap_take. eapply sublist_NoDup; [done|apply sublist_take]. }
  split_and!.
  - intros i h. rewrite Hr'. split.
    + intros [Hempty|Hex]%register_lookup_inv; [|done].
      by rewrite lookup_empty in Hempty.
    + intros (k & t & Hk & <- & ->). by apply register_lookup.
  - rewrite Hr'. by apply register_size.
  - intros k t Hk. unfold cardTask. rewrite Hp'.
    rewrite lookup_app_r by (unfold base; lia).
    replace (base + k - length (presenters b)) with k by (unfold base; lia).
    by rewrite list_lookup_fmap, Hk.
  - intros Hcr. rewrite Hcards, cleared_cards_nil in Ht' by done.
    split; [|done]. unfold materialized, cardTask. rewrite Ht', Hp'.
    apply cards_of_store.
Qed.

(** *** The registry stays well formed *)

Lemma registry_ok_ext (b b' : Board) :
  taskPresenter b' = taskPresenter b -> presenters b' = presenters b ->
  registry_ok b -> registry_ok b'.
Proof. unfold registry_ok, cardTask. by intros -> ->. Qed.

Lemma registry_ok_register (P : list TaskPresenter) (reg : gmap Z nat)
    (tasks : list Task) :
  map_Forall (fun _ h => is_Some (P !! h ≫= boundTask)) reg ->
  map_Forall
    (fun _ h => is_Some ((P ++ map (fun t => shown t) tasks) !! h ≫= boundTask))
    (register tasks (length P) reg).
Proof.
  intros Hok i h [Hi|(k & t & Hk & _ & ->)]%register_lookup_inv.
  - destruct (Hok i h Hi) as [t Ht]. exists t.
    destruct (P !! h) as [p|] eqn:Hp; [|done].
    by rewrite (lookup_app_l_Some _ _ _ _ Hp).
  - exists t. rewrite lookup_app_r by lia.
    replace (length P + k - length P) with k by lia.
    by rewrite list_lookup_fmap, Hk.
Qed.

Lemma registry_ok_newBoard (tasks : list Task) (filterType : FilterType) :
  registry_ok (newBoard tasks filterType).
Proof. apply map_Forall_empty. Qed.

Lemma registry_ok_renderBoard (env : Js.Env) (b : Board) :
  registry_ok b -> registry_ok (renderBoard fp up down env b).
Proof.
  intros Hok. destruct (isLoading b) eqn:Hl.
  - rewrite renderBoard_loading by done. by eapply registry_ok_ext.
  - rewrite renderBoard_eq by done. by apply registry_ok_register.
Qed.

Lemma registry_ok_clearBoard (r1 r2 : bool) (env : Js.Env) (b : Board) :
  registry_ok (clearBoard fp up down r1 r2 env b).
Proof. rewrite clearBoard_eq. apply map_Forall_empty. Qed.

Lemma registry_ok_init (h : Handle) (task : Task) (b : Board) :
  registry_ok b -> is_Some (cardTask b h) ->
  registry_ok (Presenter.init h task b).
Proof.
  intros Hok Hh. rewrite init_rendered by done. intros i h' Hi.
  destruct (Hok i h' Hi) as [t Ht]. unfold cardTask in *.
  cbn [presenters set_presenters].
  destruct (decide (h = h')) as [<-|Hne].
  - exists task. rewrite list_lookup_insert_eq; [done|].
    destruct (presenters b !! h) eqn:Hp; [|done]. by eapply lookup_lt_Some.
  - exists t. by rewrite list_lookup_insert_ne.
Qed.

(** Every handler of the board keeps the registry well formed, whether it
    returns or throws. *)
Theorem registry_ok_preserved (env : Js.Env) (b : Board) :
  registry_ok b ->
  (forall updateType data,
      registry_ok (boardOf (handleModelEvent fp up down env updateType data b))) /\
  (forall actionType updateType update,
      registry_ok (boardOf (handleViewAction actionType updateType update b))) /\
  registry_ok (handleLoadMoreButtonClick fp up down env b) /\
  (forall sortType, registry_ok (handleSortTypeChange fp up down env sortType b)).
Proof.
  intros Hok. split_and!.
  - intros [] data; unfold handleModelEvent; cbn [boardOf].
    + destruct (taskPresenter b !! id data) as [h|] eqn:Hh; cbn [boardOf];
        [|done].
      apply registry_ok_init; [done|]. by apply (Hok (id data)).
    + apply registry_ok_renderBoard, registry_ok_clearBoard.
    + apply registry_ok_renderBoard, registry_ok_clearBoard.
    + apply registry_ok_renderBoard. by eapply registry_ok_ext.
  - intros [] updateType update; unfold handleViewAction.
    + destruct (taskPresenter b !! id update) as [h|]; cbn [boardOf]; [|done].
      by apply registry_ok_set_api, registry_ok_setViewState.
    + cbn [boardOf]. by eapply registry_ok_ext.
    + destruct (taskPresenter b !! id update) as [h|]; cbn [boardOf]; [|done].
      by apply registry_ok_set_api, registry_ok_setViewState.
  - rewrite handleLoadMoreButtonClick_eq. by apply registry_ok_register.
  - intros sortType. unfold handleSortTypeChange. case_bool_decide; [done|].
    apply registry_ok_renderBoard, registry_ok_clearBoard.
Qed.

(** *** Model events, as the page shows them *)

Lemma length_getTasks (env : Js.Env) (b : Board) :
  length (getTasks fp up down env b)
  = length (filter_by fp (filterModel b) env (tasksModel b)).
Proof. apply Permutation_length, getTasks_perm. Qed.

Lemma rerender_eq (r1 r2 : bool) (env : Js.Env) (b : Board) :
  let c := clearBoard fp up down r1 r2 env b in
  let b' := renderBoard fp up down env c in
  let window :=
    if isLoading b then []
    else take (renderedTasksCount c) (getTasks fp up down env c) in
  taskPresenter b' = register window (length (presenters b)) ∅ /\
  presenters b' = presenters b ++ map (fun t => shown t) window /\
  taskListComponent b'
  = taskListComponent c ++ seq (length (presenters b)) (length window) /\
  tasksModel b' = tasksModel b /\ filterModel b' = filterModel b /\
  api b' = api b /\ isLoading b' = isLoading b /\
  currentSortType b' = currentSortType c /\
  renderedTasksCount b' = renderedTasksCount c /\
  taskNewPresenter b' = Dismissed.
Proof.
  intros c b' window.
  assert (Hc : c = clearBoard fp up down r1 r2 env b) by done.
  rewrite clearBoard_eq in Hc.
  assert (Hload : isLoading c = isLoading b) by (by rewrite Hc).
  subst b' window. destruct (isLoading b) eqn:Hl.
  - rewrite renderBoard_loading by done. rewrite Hc. simpl.
    by rewrite !app_nil_r.
  - rewrite renderBoard_eq by done. rewrite Hc at 1 2 3 4 5 6 7. simpl.
    split_and!; try done; by rewrite Hc.
Qed.

Lemma cards_registered_ext (b b' : Board) :
  taskPresenter b' = taskPresenter b ->
  taskListComponent b' = taskListComponent b ->
  cards_registered b -> cards_registered b'.
Proof. unfold cards_registered. by intros -> ->. Qed.

Lemma rerender_materialized (r1 r2 : bool) (env : Js.Env) (b : Board) :
  cards_registered b ->
  let c := clearBoard fp up down r1 r2 env b in
  let b' := renderBoard fp up down env c in
  materialized b'
  = if isLoading b then []
    else take (renderedTasksCount c) (getTasks fp up down env c).
Proof.
  intros Hreg c b'.
  destruct (rerender_eq r1 r2 env b) as (_ & Hp & Ht & _).
  fold c b' in Hp, Ht.
  assert (Hnil : taskListComponent c = []).
  { subst c. rewrite clearBoard_eq. simpl. by apply cleared_cards_nil. }
  rewrite Hnil in Ht. unfold materialized, cardTask. rewrite Ht, Hp.
  apply cards_of_store.
Qed.





End BoardFacts.

(** ** The theorems at work on sample boards *)

(** The first load is the INIT event on the board [init] left. *)
Example loading_ten : Sample.loading 10 = Done (Sample.loaded 10).
Proof. vm_compute. reflexivity. Qed.

(** Page size 8 and ten visible tasks: the first render shows eight tasks and
    the load-more control; one click shows all ten and removes the control. *)
Example ten_tasks_scenario :
  map id (materialized (Sample.loaded 10)) = [1; 2; 3; 4; 5; 6; 7; 8]%Z /\
  loadMoreShown (Sample.loaded 10) = true /\
  map id (materialized (Sample.loadMore (Sample.loaded 10)))
  = [1; 2; 3; 4; 5; 6; 7; 8; 9; 10]%Z /\
  loadMoreShown (Sample.loadMore (Sample.loaded 10)) = false.
Proof. vm_compute. repeat split. Qed.

Lemma C1_update_rejected_witness :
  registry_ok (Sample.loaded 10) /\
  handleViewAction UPDATE_TASK PATCH (Sample.plainTask 3) (Sample.loaded 10)
  = Done Sample.saving3 /\
  exists b2,
    Sample.settled Sample.updateOf3 Rejected Sample.saving3 = Done b2 /\
    tasksModel b2 = tasksModel (Sample.loaded 10) /\
    viewStateOf b2 3%Z = Some ABORTING /\
    api b2 = [Sample.updateOf3].
Proof.
  assert (H1 : registry_ok (Sample.loaded 10))
    by (apply (bool_decide_unpack _); vm_compute; exact I).
  assert (H2 : handleViewAction UPDATE_TASK PATCH (Sample.plainTask 3)
                 (Sample.loaded 10) = Done Sample.saving3)
    by (vm_compute; reflexivity).
  split; [exact H1|]. split; [exact H2|].
  destruct (C1_update_rejected Sample.filterPredicate Sample.sortTasksUp
              Sample.sortTasksDown Sample.updateTask Sample.addTask
              Sample.deleteTask Sample.env PATCH (Sample.plainTask 3)
              (Sample.loaded 10) Sample.saving3 H1 H2)
    as (_ & _ & (b2 & Hs & Hm & _ & Hv & Ha) & _ & _).
  exists b2. split; [exact Hs|]. split; [exact Hm|]. split; [exact Hv|].
  exact Ha.
Defined.

(** C1 as stated fails: ten tasks are loaded and an UPDATE of task 8 is
    dispatched, which marks its presenter SAVING and calls the service;
    before the service answers, an ADD of task 11 is confirmed and the list
    is rendered again, with task 8 no longer among the eight that are
    shown.  The rejection of the update then throws a TypeError: there is
    no presenter for task 8, and no presenter at all is in the ABORTING
    state. *)
Lemma C1_counterexample :
  registry_ok (Sample.loaded 10) /\
  Sample.dispatch UPDATE_TASK PATCH (Sample.plainTask 8) (Sample.loaded 10)
  = Done Sample.saving8 /\
  viewStateOf Sample.saving8 8%Z = Some SAVING /\
  andThen (Sample.dispatch ADD_TASK MINOR (Sample.plainTask 11) Sample.saving8)
    (fun b => Sample.settled Sample.addOf11 (Resolved (Sample.plainTask 11)) b)
  = Done Sample.staleBoard /\
  Sample.settled Sample.updateOf8 Rejected Sample.staleBoard
  = Threw TypeError Sample.staleBoard /\
  viewStateOf Sample.staleBoard 8%Z = None /\
  Forall (fun p => viewState p <> ABORTING) (presenters Sample.staleBoard) /\
  ~ (exists b2,
        Sample.settled Sample.updateOf8 Rejected Sample.staleBoard = Done b2 /\
        viewStateOf b2 8%Z = Some ABORTING).
Proof.
  assert (Hnone : taskPresenter Sample.staleBoard !! 8%Z = None)
    by (vm_compute; reflexivity).
  assert (Hthrow : Sample.settled Sample.updateOf8 Rejected Sample.staleBoard
                   = Threw TypeError Sample.staleBoard).
  { unfold Sample.settled, settle, onRejected. simpl reqAction. simpl reqUpdate.
    change (id (Sample.plainTask 8)) with 8%Z. by rewrite Hnone. }
  split_and!.
  - apply (bool_decide_unpack _). vm_compute. exact I.
  - vm_compute. reflexivity.
  - vm_compute. reflexivity.
  - vm_compute. reflexivity.
  - exact Hthrow.
  - unfold viewStateOf. by rewrite Hnone.
  - vm_compute. repeat (constructor; [discriminate|]). constructor.
  - intros (b2 & Hs & _). rewrite Hthrow in Hs. discriminate Hs.
Qed.

(** C2 as stated fails: after the trace of [Sample.savingWhileAdded] the
    task 8 has no presenter; the rejection callback of its update, a PATCH
    notification for it and a dispatch for it then throw a TypeError, so the
    stale id is not handled as a no-op.  Likewise a PATCH notification for
    task 9 of ten loaded tasks, which lies past the eight that are shown. *)
Lemma C2_counterexample :
  Sample.savingWhileAdded = Done Sample.staleBoard /\
  taskPresenter Sample.staleBoard !! 8%Z = None /\
  Sample.settled Sample.updateOf8 Rejected Sample.staleBoard
  = Threw TypeError Sample.staleBoard /\
  Sample.notify PATCH (Sample.plainTask 8) Sample.staleBoard
  = Threw TypeError Sample.staleBoard /\
  Sample.dispatch UPDATE_TASK PATCH (Sample.plainTask 8) Sample.staleBoard
  = Threw TypeError Sample.staleBoard /\
  Sample.notify PATCH (Sample.plainTask 9) (Sample.loaded 10)
  = Threw TypeError (Sample.loaded 10) /\
  ~ (forall (b : Board) (update : Task),
        taskPresenter b !! id update = None ->
        Sample.notify PATCH update b = Done b /\
        Sample.settled (mkRequest UPDATE_TASK PATCH update) Rejected b = Done b).
Proof.
  assert (Hnone : taskPresenter Sample.staleBoard !! 8%Z = None)
    by (vm_compute; reflexivity).
  assert (Hthrow : Sample.notify PATCH (Sample.plainTask 8) Sample.staleBoard
                   = Threw TypeError Sample.staleBoard).
  { unfold Sample.notify, handleModelEvent.
    change (id (Sample.plainTask 8)) with 8%Z. by rewrite Hnone. }
  split_and!.
  - vm_compute. reflexivity.
  - exact Hnone.
  - unfold Sample.settled, settle, onRejected. simpl reqAction. simpl reqUpdate.
    change (id (Sample.plainTask 8)) with 8%Z. by rewrite Hnone.
  - exact Hthrow.
  - unfold Sample.dispatch, handleViewAction.
    change (id (Sample.plainTask 8)) with 8%Z. by rewrite Hnone.
  - assert (H9 : taskPresenter (Sample.loaded 10) !! 9%Z = None)
      by (vm_compute; reflexivity).
    unfold Sample.notify, handleModelEvent.
    change (id (Sample.plainTask 9)) with 9%Z. by rewrite H9.
  - intros Hclaim.
    destruct (Hclaim Sample.staleBoard (Sample.plainTask 8) Hnone) as [Hn _].
    rewrite Hthrow in Hn. discriminate Hn.
Qed.

Lemma C2_unregistered_id_throws_witness :
  taskPresenter Sample.staleBoard !! id (Sample.plainTask 8) = None /\
  Sample.notify PATCH (Sample.plainTask 8) Sample.staleBoard
  = Threw TypeError Sample.staleBoard.
Proof.
  assert (Hnone : taskPresenter Sample.staleBoard !! id (Sample.plainTask 8)
                  = None)
    by (vm_compute; reflexivity).
  split; [exact Hnone|].
  exact (proj1 (proj2 (proj2
           (C2_unregistered_id_throws Sample.filterPredicate Sample.sortTasksUp
              Sample.sortTasksDown Sample.updateTask Sample.addTask
              Sample.deleteTask Sample.env (Sample.plainTask 8)
              Sample.staleBoard Hnone)))).
Defined.

Lemma C3_pagination_witness :
  let c := (Sample.unrendered 10) in
  let vis := getTasks Sample.filterPredicate Sample.sortTasksUp
               Sample.sortTasksDown Sample.env c in
  let b := afterLoadMore Sample.filterPredicate Sample.sortTasksUp
             Sample.sortTasksDown Sample.env 1
             (renderBoard Sample.filterPredicate Sample.sortTasksUp
                Sample.sortTasksDown Sample.env c) in
  isLoading c = false /\
  renderedTasksCount c = TASK_AMOUNT_PER_STEP /\
  taskListComponent c = [] /\
  loadMoreButtonComponent c <> Some true /\
  length vis = 10 /\
  length (materialized b) = 10 /\
  (loadMoreShown b = true <-> length (materialized b) < length vis).
Proof.
  assert (H1 : isLoading (Sample.unrendered 10) = false)
    by (vm_compute; reflexivity).
  assert (H2 : renderedTasksCount (Sample.unrendered 10) = TASK_AMOUNT_PER_STEP)
    by (vm_compute; reflexivity).
  assert (H3 : taskListComponent (Sample.unrendered 10) = [])
    by (vm_compute; reflexivity).
  assert (H4 : loadMoreButtonComponent (Sample.unrendered 10) <> Some true)
    by (vm_compute; discriminate).
  pose proof (C3_pagination Sample.filterPredicate Sample.sortTasksUp
                Sample.sortTasksDown Sample.env (Sample.unrendered 10) 1
                H1 H2 H3 H4) as H.
  cbv zeta in H. destruct H as (_ & Hl & Hb & _).
  intros c vis b.
  split; [exact H1|]. split; [exact H2|]. split; [exact H3|].
  split; [exact H4|]. split; [vm_compute; reflexivity|].
  split; [|exact Hb].
  etrans; [exact Hl|]. vm_compute. reflexivity.
Defined.

(** C4 as stated fails: eight tasks are shown with the cursor at 8; the
    service confirms the deletion of task 1 and the model notifies MINOR;
    the cursor is 7 afterwards. *)
Lemma C4_counterexample :
  renderedTasksCount Sample.beforeMinor = 8 /\
  exists b',
    Sample.notify MINOR (Sample.plainTask 1) Sample.beforeMinor = Done b' /\
    Sample.deletedOneOfEight = Done b' /\
    currentSortType b' = currentSortType Sample.beforeMinor /\
    filterModel b' = filterModel Sample.beforeMinor /\
    renderedTasksCount b' = 7 /\
    renderedTasksCount b' < renderedTasksCount Sample.beforeMinor.
Proof.
  split; [reflexivity|]. eexists. split; [reflexivity|].
  split_and!; vm_compute; reflexivity.
Qed.


Lemma C8_pipeline_idempotent_witness :
  [Sample.tasks 10] !! 0 = Some (tasksModel (Sample.loaded 10)) /\
  getTasks Sample.filterPredicate Sample.sortTasksUp Sample.sortTasksDown
    Sample.env (Sample.loadMore (Sample.loaded 10))
  = getTasks Sample.filterPredicate Sample.sortTasksUp Sample.sortTasksDown
      Sample.env (Sample.loaded 10).
Proof.
  assert (H1 : [Sample.tasks 10] !! 0 = Some (tasksModel (Sample.loaded 10)))
    by (vm_compute; reflexivity).
  split; [exact H1|].
  destruct (C8_pipeline_idempotent Sample.filterPredicate Sample.sortTasksUp
              Sample.sortTasksDown Sample.env (Sample.loaded 10)
              [Sample.tasks 10] 0 H1)
    as (_ & _ & _ & _ & _ & Hmore & _).
  exact Hmore.
Defined.

Lemma C10_registry_after_render_witness :
  let c := clearBoard Sample.filterPredicate Sample.sortTasksUp
             Sample.sortTasksDown false false Sample.env (Sample.loaded 10) in
  let b' := renderBoard Sample.filterPredicate Sample.sortTasksUp
              Sample.sortTasksDown Sample.env c in
  NoDup (id <$> getTasks Sample.filterPredicate Sample.sortTasksUp
                  Sample.sortTasksDown Sample.env c) /\
  taskPresenter c = ∅ /\
  size (taskPresenter b') = 8.
Proof.
  intros c b'.
  assert (H1 : NoDup (id <$> getTasks Sample.filterPredicate Sample.sortTasksUp
                           Sample.sortTasksDown Sample.env c))
    by (apply (bool_decide_unpack _); vm_compute; exact I).
  split; [exact H1|].
  destruct (C10_registry_after_render Sample.filterPredicate Sample.sortTasksUp
              Sample.sortTasksDown Sample.env false false (Sample.loaded 10) H1)
    as ((Hempty & _) & _ & Hsize & _).
  split; [exact Hempty|]. etrans; [exact Hsize|]. vm_compute. reflexivity.
Defined.

(** * More of the code *)

(** ** The date predicates through the day *)

Lemma getCurrentDate_local_day (env : Js.Env) :
  Js.getTime (getCurrentDate env) =
  let localDay := (Js.LocalTime (Js.zone env) (Js.nowMs env) / Js.msPerDay)%Z in
  Js.TimeClip (Js.UTC (Js.zone env) (Js.msPerDay * localDay + 86399999)%Z).
Proof.
  rewrite getCurrentDate_time. cbv zeta.
  rewrite Zmod_eq_full by (unfold Js.msPerDay; lia).
  do 2 f_equal. lia.
Qed.

(** X1: the two predicates read the clock only through the local day it
    falls in: two clocks of one time zone in the same local day give the same
    answers for every due date. *)
Theorem date_predicates_same_day (env1 env2 : Js.Env) (due : option Js.Date) :
  Js.zone env1 = Js.zone env2 ->
  (Js.LocalTime (Js.zone env1) (Js.nowMs env1) / Js.msPerDay
   = Js.LocalTime (Js.zone env2) (Js.nowMs env2) / Js.msPerDay)%Z ->
  getCurrentDate env1 = getCurrentDate env2 /\
  isTaskExpired env1 due = isTaskExpired env2 due /\
  isTaskExpiringToday env1 due = isTaskExpiringToday env2 due.
Proof.
  intros Htz Hday.
  assert (Heq : getCurrentDate env1 = getCurrentDate env2).
  { pose proof (getCurrentDate_local_day env1) as H1.
    pose proof (getCurrentDate_local_day env2) as H2.
    destruct (getCurrentDate env1) as [t1], (getCurrentDate env2) as [t2].
    simpl in H1, H2. subst t1 t2. cbv zeta. by rewrite Hday, Htz. }
  split; [exact Heq|].
  unfold isTaskExpired, isTaskExpiringToday. by rewrite Heq.
Qed.

(** X2: a task that expires today is not overdue today, and on every later
    local day it is overdue and no longer expires today.  The later clock is
    any clock of the same zone whose local day is a later one; the zone's
    offset varies by less than a day, and the end of the later day is within
    the range of [Date]. *)
Theorem expiring_today_is_overdue_later (env later : Js.Env)
    (due : option Js.Date) :
  isTaskExpiringToday env due = true ->
  Js.zone later = Js.zone env ->
  (Js.LocalTime (Js.zone env) (Js.nowMs env) / Js.msPerDay
   < Js.LocalTime (Js.zone later) (Js.nowMs later) / Js.msPerDay)%Z ->
  (forall x y, (Js.offsetOfLocal (Js.zone env) y
                - Js.offsetOfLocal (Js.zone env) x < Js.msPerDay)%Z) ->
  Js.getTime (getCurrentDate later) <> None ->
  isTaskExpired env due = false /\
  isTaskExpired later due = true /\
  isTaskExpiringToday later due = false.
Proof.
  intros Htoday Hzone Hday Hoff Hvalid.
  pose proof (getCurrentDate_local_day env) as Heod.
  pose proof (getCurrentDate_local_day later) as Hlater.
  cbv zeta in Heod, Hlater. rewrite Hzone in Hlater, Hday.
  set (z := Js.zone env) in *.
  set (day1 := (Js.LocalTime z (Js.nowMs env) / Js.msPerDay)%Z) in *.
  set (day2 := (Js.LocalTime z (Js.nowMs later) / Js.msPerDay)%Z) in *.
  destruct due as [[[t|]]|]; try discriminate;
    unfold isTaskExpiringToday, isTaskExpired in *;
    destruct (getCurrentDate env) as [c], (getCurrentDate later) as [cl];
    simpl in Heod, Hlater, Htoday, Hvalid |- *; subst c cl;
    destruct (Js.TimeClip (Js.UTC z (Js.msPerDay * day1 + 86399999)))
      as [e1|] eqn:H1; try discriminate.
  destruct (Js.TimeClip (Js.UTC z (Js.msPerDay * day2 + 86399999)))
    as [e2|] eqn:H2; [|done].
  apply TimeClip_Some in H1 as [-> _]. apply TimeClip_Some in H2 as [-> _].
  simpl in *. apply bool_decide_eq_true in Htoday. subst t.
  pose proof (Hoff (Js.msPerDay * day1 + 86399999)%Z
                (Js.msPerDay * day2 + 86399999)%Z) as Hvar.
  unfold Js.UTC, Js.msPerDay in *.
  split_and!.
  - apply bool_decide_eq_false. lia.
  - apply bool_decide_eq_true. lia.
  - apply bool_decide_eq_false. lia.
Qed.

(** ** More on the mock generator *)

Section MockMore.

Context (Rng : Type) (getRandomInteger : Z -> Z -> Rng -> Z * Rng)
        (COLORS : list string).

(** What [generateDate] returns, from its two draws. *)
Lemma generateDate_value (env : Js.Env) (g : Rng) :
  let first := getRandomInteger 0 1 g in
  let daysGap := (getRandomInteger (Z.opp 7) 7 first.2).1 in
  (generateDate Rng getRandomInteger env g).1
  = if bool_decide (first.1 = 0%Z) then None
    else Some (Js.addDays env daysGap (getCurrentDate env)).
Proof.
  intros first daysGap. unfold generateDate, gbind, gret.
  fold first. destruct first as [r g1] eqn:Hfirst. simpl in daysGap.
  unfold Js.Boolean. cbn [fst].
  destruct (bool_decide (r = 0%Z)); simpl; [done|].
  subst daysGap.
  destruct (getRandomInteger (Z.opp 7) 7 g1) as [gap g2] eqn:Hgap.
  simpl. f_equal. unfold Js.addDays, getCurrentDate. simpl.
  by destruct (Js.TimeClip _).
Qed.

(** The time value after [setDate(getDate() + days)] on the end of today. *)
Lemma addDays_getCurrentDate (env : Js.Env) (days : Z) :
  let z := Js.zone env in
  Js.getTime (Js.addDays env days (getCurrentDate env))
  = match Js.getTime (getCurrentDate env) with
    | Some eod =>
        Js.TimeClip (Js.UTC z (Js.LocalTime z eod + days * Js.msPerDay)%Z)
    | None => None
    end.
Proof.
  unfold Js.addDays. by destruct (Js.getTime (getCurrentDate env)).
Qed.

(** X3: [generateDate] gives [null] exactly when its first draw is 0;
    otherwise it gives the end of today moved by [daysGap] calendar days of
    local time, [daysGap] being its second draw (an invalid date when that
    is beyond the range of [Date]).  When the date is valid, the end of
    today is a local time that exists and the zone's offset varies by less
    than a day, the task is overdue exactly when the draw is negative and
    expires today exactly when it is 0. *)
Theorem generateDate_classified (env : Js.Env) (g : Rng) :
  let z := Js.zone env in
  let first := getRandomInteger 0 1 g in
  let daysGap := (getRandomInteger (Z.opp 7) 7 first.2).1 in
  match (generateDate Rng getRandomInteger env g).1 with
  | None => first.1 = 0%Z
  | Some d =>
      first.1 <> 0%Z /\
      Js.getTime d
      = match Js.getTime (getCurrentDate env) with
        | Some eod =>
            Js.TimeClip
              (Js.UTC z (Js.LocalTime z eod + daysGap * Js.msPerDay)%Z)
        | None => None
        end /\
      (Js.getTime d = None ->
         isTaskExpired env (Some d) = false /\
         isTaskExpiringToday env (Some d) = false) /\
      (forall eod t : Z,
         Js.getTime (getCurrentDate env) = Some eod ->
         Js.getTime d = Some t ->
         Js.UTC z (Js.LocalTime z eod) = eod ->
         (forall x y, (Js.offsetOfLocal z y - Js.offsetOfLocal z x
                       < Js.msPerDay)%Z) ->
         (isTaskExpired env (Some d) = true <-> (daysGap < 0)%Z) /\
         (isTaskExpiringToday env (Some d) = true <-> daysGap = 0%Z))
  end.
Proof.
  intros z first daysGap.
  pose proof (generateDate_value env g) as Hgen. cbv zeta in Hgen.
  fold first daysGap in Hgen. rewrite Hgen. clear Hgen.
  case_bool_decide as Hr; [done|].
  split; [done|]. split; [apply addDays_getCurrentDate|].
  unfold isTaskExpired, isTaskExpiringToday. cbv zeta.
  split.
  { intros ->. by destruct (Js.getTime (getCurrentDate env)). }
  intros eod t Heod Ht Hround Hoff.
  rewrite Ht, Heod. rewrite addDays_getCurrentDate, Heod in Ht.
  apply TimeClip_Some in Ht as [-> _]. simpl.
  rewrite !bool_decide_eq_true. fold z.
  set (l := Js.LocalTime z eod) in *.
  pose proof (Hoff l (l + daysGap * Js.msPerDay)%Z) as H1.
  pose proof (Hoff (l + daysGap * Js.msPerDay)%Z l) as H2.
  unfold Js.UTC, Js.msPerDay in *. clearbody daysGap.
  assert (Hsame : daysGap = 0%Z ->
            Js.offsetOfLocal z (l + daysGap * 86400000) = Js.offsetOfLocal z l)
    by (intros ->; f_equal; lia).
  split; split; intros H; lia.
Qed.

(** X4: with a random source that stays in the range it is asked for, the
    due date of a generated task, when it has one, is the end of today moved
    by at most seven calendar days of local time, so that its instant is
    within seven days of the end of today, give or take the spread of the
    zone's offsets; the description is one of the three of the source; the
    colour is one of the palette, or [undefined] for an empty palette; and of
    the weekday flags only [we] and [fr] are ever set. *)
Theorem generateTask_ranges (env : Js.Env) (g : Rng) :
  (forall a b g', (a <= b)%Z ->
                  (a <= (getRandomInteger a b g').1 <= b)%Z) ->
  let z := Js.zone env in
  let task := (generateTask Rng getRandomInteger COLORS env g).1 in
  (forall d, dueDate task = Some d ->
     exists daysGap : Z,
       (-7 <= daysGap <= 7)%Z /\
       Js.getTime d
       = match Js.getTime (getCurrentDate env) with
         | Some eod =>
             Js.TimeClip
               (Js.UTC z (Js.LocalTime z eod + daysGap * Js.msPerDay)%Z)
         | None => None
         end /\
       forall t eod spread : Z,
         Js.getTime d = Some t ->
         Js.getTime (getCurrentDate env) = Some eod ->
         (forall x y, (Z.abs (Js.offsetAt z x - Js.offsetOfLocal z y)
                       <= spread)%Z) ->
         (eod - 7 * Js.msPerDay - spread <= t
          <= eod + 7 * Js.msPerDay + spread)%Z) /\
  (exists text, description task = Some text /\
     text ∈ ["Изучить теорию"; "Сделать домашку";
             "Пройти интенсив на соточку"]%string) /\
  (COLORS <> [] -> exists c, color task = Some c /\ c ∈ COLORS) /\
  (COLORS = [] -> color task = None) /\
  mo (repeating task) = false /\ tu (repeating task) = false /\
  th (repeating task) = false /\ sa (repeating task) = false /\
  su (repeating task) = false /\
  isTaskRepeating (repeating task)
  = we (repeating task) || fr (repeating task).
Proof.
  intros Hrange z task.
  assert (Hidx : forall (l : list string) g', l <> [] ->
             exists x, Js.index l (getRandomInteger 0 (Z.of_nat (length l) - 1) g').1
                       = Some x /\ x ∈ l).
  { intros l g' Hl.
    destruct (Hrange 0%Z (Z.of_nat (length l) - 1)%Z g') as [Hlo Hhi].
    { destruct l; [done|]. simpl. lia. }
    unfold Js.index. rewrite bool_decide_eq_true_2 by done.
    destruct (lookup_lt_is_Some_2 l
                (Z.to_nat (getRandomInteger 0 (Z.of_nat (length l) - 1) g').1))
      as [x Hx]; [lia|].
    exists x. split; [done|]. by eapply list_elem_of_lookup_2. }
  subst task. unfold generateTask, gbind, gret.
  pose proof (generateDate_value env g) as Hdate. cbv zeta in Hdate.
  destruct (generateDate Rng getRandomInteger env g) as [[d|] g1] eqn:Hgen;
    simpl in Hdate |- *.
  - assert (Ht : d = Js.addDays env
                       (getRandomInteger (Z.opp 7) 7 (getRandomInteger 0 1 g).2).1
                       (getCurrentDate env))
      by (case_bool_decide; congruence).
    clear Hdate.
    destruct (Hrange (Z.opp 7) 7%Z (getRandomInteger 0 1 g).2 ltac:(lia)) as [Hlo Hhi].
    assert (Hdue : exists daysGap : Z,
      (-7 <= daysGap <= 7)%Z /\
      Js.getTime d
      = match Js.getTime (getCurrentDate env) with
        | Some eod =>
            Js.TimeClip
              (Js.UTC z (Js.LocalTime z eod + daysGap * Js.msPerDay)%Z)
        | None => None
        end /\
      forall t eod spread : Z,
        Js.getTime d = Some t ->
        Js.getTime (getCurrentDate env) = Some eod ->
        (forall x y, (Z.abs (Js.offsetAt z x - Js.offsetOfLocal z y)
                      <= spread)%Z) ->
        (eod - 7 * Js.msPerDay - spread <= t
         <= eod + 7 * Js.msPerDay + spread)%Z).
    { eexists. split; [split; [exact Hlo|exact Hhi]|].
      rewrite Ht. split; [apply addDays_getCurrentDate|].
      intros t eod spread Hd Heod Hspread.
      rewrite addDays_getCurrentDate, Heod in Hd.
      apply TimeClip_Some in Hd as [-> _]. fold z.
      match goal with
      | |- context [Js.UTC z ?l] =>
          pose proof (Hspread eod l) as Hs
      end.
      unfold Js.UTC, Js.LocalTime, Js.msPerDay in *. lia. }
    clear Ht Hlo Hhi.
    unfold generateDescription, getRandomColor, gbind, gret.
    destruct (Hidx ["Изучить теорию"; "Сделать домашку";
                    "Пройти интенсив на соточку"]%string g1 ltac:(done))
      as (text & Htext & Hin).
    simpl length in *.
    destruct (getRandomInteger 0 (Z.of_nat 3 - 1) g1) as [i1 g2] eqn:H1.
    pose proof (Hidx COLORS g2) as Hcol.
    destruct (getRandomInteger 0 (Z.of_nat (length COLORS) - 1) g2)
      as [i2 g3] eqn:H2.
    destruct (getRandomInteger 0 1 g3) as [i3 g4].
    destruct (getRandomInteger 0 1 g4) as [i4 g5]. simpl in *.
    split_and!; try done.
    + intros d' [= <-]. exact Hdue.
    + by exists text.
    + intros HC. unfold Js.index. rewrite HC. by case_bool_decide.
  - clear Hdate.
    unfold generateRepeatingDays, generateDescription, getRandomColor, gbind,
      gret.
    destruct (getRandomInteger 0 1 g1) as [w g1a].
    destruct (getRandomInteger 0 1 g1a) as [f g1b].
    destruct (Hidx ["Изучить теорию"; "Сделать домашку";
                    "Пройти интенсив на соточку"]%string g1b ltac:(done))
      as (text & Htext & Hin).
    simpl length in *.
    destruct (getRandomInteger 0 (Z.of_nat 3 - 1) g1b) as [i1 g2] eqn:H1.
    pose proof (Hidx COLORS g2) as Hcol.
    destruct (getRandomInteger 0 (Z.of_nat (length COLORS) - 1) g2)
      as [i2 g3] eqn:H2.
    destruct (getRandomInteger 0 1 g3) as [i3 g4].
    destruct (getRandomInteger 0 1 g4) as [i4 g5]. simpl in *.
    split_and!; try done.
    + by exists text.
    + intros HC. unfold Js.index. rewrite HC. by case_bool_decide.
    + unfold Js.Boolean. by repeat case_bool_decide.
Qed.

End MockMore.

(** ** More on the board presenter *)

Section BoardMore.

Context (fp : FilterType -> Js.Env -> Task -> bool)
        (up down : Task -> Task -> Z)
        (mUpdate mAdd mDelete : Task -> list Task -> option (list Task)).

Local Abbreviation shown t := (mkTaskPresenter (Some t) NORMAL).

(** *** The other actions *)

(** X5: when the service rejects the call of a dispatched DELETE, the
    collection (and so its count) is as it was before the dispatch, the card
    stays in the list, the presenter of the task's id leaves the DELETING
    state for ABORTING, and no second call is made. *)
Theorem delete_rejected (env : Js.Env) (updateType : UpdateType)
    (update : Task) (b b1 : Board) :
  registry_ok b ->
  handleViewAction DELETE_TASK updateType update b = Done b1 ->
  let req := mkRequest DELETE_TASK updateType update in
  api b1 = api b ++ [req] /\
  viewStateOf b1 (id update) = Some DELETING /\
  exists b2,
    settle fp up down mUpdate mAdd mDelete req Rejected env b1 = Done b2 /\
    tasksModel b2 = tasksModel b /\
    taskPresenter b2 = taskPresenter b /\
    taskListComponent b2 = taskListComponent b /\
    viewStateOf b2 (id update) = Some ABORTING /\
    api b2 = api b ++ [req].
Proof.
  intros Hok Hd req. unfold handleViewAction in Hd.
  destruct (taskPresenter b !! id update) as [h|] eqn:Hh; [|discriminate].
  injection Hd as <-.
  set (b0 := Presenter.setViewState h DELETING b).
  assert (Hok0 : registry_ok b0) by (by apply registry_ok_setViewState).
  assert (Hh0 : taskPresenter b0 !! id update = Some h) by (by destruct b).
  split_and!.
  - by destruct b.
  - change (viewStateOf (set_api (api b0 ++ [req]) b0) (id update))
      with (viewStateOf b0 (id update)).
    by apply viewStateOf_setViewState.
  - unfold settle, onRejected, req. cbn [reqAction reqUpdate].
    change (taskPresenter (set_api ?calls b0)) with (taskPresenter b0).
    rewrite Hh0. eexists. split; [reflexivity|]. split_and!;
      try (by destruct b).
    apply viewStateOf_setViewState; [|done]. by apply registry_ok_set_api.
Qed.

Lemma renderBoard_keeps (env : Js.Env) (b : Board) :
  tasksModel (renderBoard fp up down env b) = tasksModel b /\
  api (renderBoard fp up down env b) = api b /\
  taskNewPresenter (renderBoard fp up down env b) = taskNewPresenter b.
Proof.
  destruct (isLoading b) eqn:Hl.
  - by rewrite renderBoard_loading.
  - by rewrite renderBoard_eq.
Qed.

(** X6: an ADD action looks no presenter up, so its whole cycle returns
    whatever the registry holds and whatever the update type: the dispatch
    leaves the creation form saving and makes one call; a rejection leaves
    the form aborting and the collection as it was; a confirmation never
    throws either: when the model refuses the task the form is aborting and
    the collection as it was, and when the model takes it the collection is
    the new one and, for MINOR and MAJOR, the form is dismissed by the
    render.  No call is repeated. *)
Theorem add_cycle_never_throws (env : Js.Env) (updateType : UpdateType)
    (update response : Task) (b : Board) :
  let req := mkRequest ADD_TASK updateType update in
  exists b1 b2 b3,
    handleViewAction ADD_TASK updateType update b = Done b1 /\
    settle fp up down mUpdate mAdd mDelete req Rejected env b1 = Done b2 /\
    settle fp up down mUpdate mAdd mDelete req (Resolved response) env b1
    = Done b3 /\
    taskNewPresenter b1 = NewSaving /\
    api b1 = api b ++ [req] /\
    tasksModel b1 = tasksModel b /\ taskPresenter b1 = taskPresenter b /\
    presenters b1 = presenters b /\
    taskNewPresenter b2 = NewAborting /\
    tasksModel b2 = tasksModel b /\ api b2 = api b ++ [req] /\
    api b3 = api b ++ [req] /\
    (mAdd response (tasksModel b) = None ->
     taskNewPresenter b3 = NewAborting /\ tasksModel b3 = tasksModel b) /\
    (forall tasks', mAdd response (tasksModel b) = Some tasks' ->
       tasksModel b3 = tasks' /\
       (updateType = MINOR \/ updateType = MAJOR ->
        taskNewPresenter b3 = Dismissed)).
Proof.
  intros req. unfold handleViewAction.
  set (b1 := set_api _ _).
  assert (Hb1 : taskNewPresenter b1 = NewSaving /\ api b1 = api b ++ [req] /\
                tasksModel b1 = tasksModel b /\
                taskPresenter b1 = taskPresenter b /\
                presenters b1 = presenters b) by (by destruct b).
  destruct Hb1 as (Hnew & Hapi & Hmodel & Hreg & Hpres).
  exists b1. eexists. 
  unfold settle, onFulfilled, modelApply, onRejected.
  cbn [reqAction reqUpdateType reqUpdate req]. rewrite Hmodel.
  destruct (mAdd response (tasksModel b)) as [tasks'|] eqn:Hadd.
  - set (bm := set_tasksModel tasks' b1).
    assert (Hbm : tasksModel bm = tasks' /\ api bm = api b ++ [req])
      by (by rewrite <- Hapi; destruct b1).
    destruct Hbm as (Hbm1 & Hbm2).
    destruct updateType; unfold handleModelEvent.
    + destruct (taskPresenter bm !! id response) as [h|].
      * eexists. split_and!; try done; try (by destruct b).
        -- unfold Presenter.init. destruct (presenters bm !! h) as [p|];
             [|done]. by destruct (boundTask p).
        -- intros tasks'' [= <-]. split; [|by intros [?|?]].
           unfold Presenter.init. destruct (presenters bm !! h) as [p|];
             [|done]. by destruct (boundTask p).
      * eexists. split_and!; try done; try (by destruct b).
        intros tasks'' [= <-]. split; [done|by intros [?|?]].
    + destruct (renderBoard_keeps env (clearBoard fp up down false false env bm))
        as (Hk1 & Hk2 & Hk3).
      eexists. split_and!; try done; try (by destruct b).
      * rewrite Hk2, clearBoard_eq. done.
      * intros tasks'' [= <-]. split.
        -- rewrite Hk1, clearBoard_eq. done.
        -- intros _. rewrite Hk3, clearBoard_eq. done.
    + destruct (renderBoard_keeps env (clearBoard fp up down true true env bm))
        as (Hk1 & Hk2 & Hk3).
      eexists. split_and!; try done; try (by destruct b).
      * rewrite Hk2, clearBoard_eq. done.
      * intros tasks'' [= <-]. split.
        -- rewrite Hk1, clearBoard_eq. done.
        -- intros _. rewrite Hk3, clearBoard_eq. done.
    + destruct (renderBoard_keeps env
                  (set_loadingComponent false (set_isLoading false bm)))
        as (Hk1 & Hk2 & Hk3).
      cbv zeta. eexists. split_and!; try done; try (by destruct b).
      intros tasks'' [= <-]. split; [|by intros [?|?]].
      rewrite Hk1. by rewrite <- Hbm1; destruct bm.
  - eexists. split_and!; try done; by destruct b.
Qed.

(** X7: when the service confirms an update with update type PATCH and the
    model takes the change, the collection is the one the model returns, the
    presenter registered for the confirmed task shows it and is back in
    NORMAL, and everything else is as it was: the other presenters, the
    registry, the order of the cards, the cursor and the calls made. *)
Theorem update_confirmed_patch (env : Js.Env) (update response : Task)
    (b : Board) (h : Handle) (tasks' : list Task) :
  registry_ok b ->
  taskPresenter b !! id response = Some h ->
  mUpdate response (tasksModel b) = Some tasks' ->
  exists b2,
    settle fp up down mUpdate mAdd mDelete
      (mkRequest UPDATE_TASK PATCH update) (Resolved response) env b = Done b2 /\
    tasksModel b2 = tasks' /\
    cardTask b2 h = Some response /\
    viewStateOf b2 (id response) = Some NORMAL /\
    (forall h', h' <> h -> presenters b2 !! h' = presenters b !! h') /\
    taskPresenter b2 = taskPresenter b /\
    taskListComponent b2 = taskListComponent b /\
    renderedTasksCount b2 = renderedTasksCount b /\
    api b2 = api b.
Proof.
  intros Hok Hh Hm.
  destruct (registry_ok_lookup b _ h Hok Hh) as (p & t & Hp & Ht).
  unfold settle, onFulfilled, modelApply. cbn [reqAction reqUpdateType].
  rewrite Hm. unfold handleModelEvent.
  change (taskPresenter (set_tasksModel tasks' b)) with (taskPresenter b).
  rewrite Hh. eexists. split; [reflexivity|].
  rewrite init_rendered
    by (unfold cardTask; cbn [presenters set_tasksModel]; rewrite Hp; simpl;
        by rewrite Ht).
  assert (Hlt : h < length (presenters b)) by (by eapply lookup_lt_Some).
  unfold cardTask, viewStateOf.
  cbn [presenters taskPresenter tasksModel taskListComponent
       renderedTasksCount api set_presenters set_tasksModel].
  rewrite Hh. cbn [mbind option_bind]. rewrite list_lookup_insert_eq by done.
  split_and!; try done.
  intros h' Hne. by apply list_lookup_insert_ne.
Qed.

(** X8: a fault in the callback of a confirmed update is caught by the same
    [catch] as a rejection.  When the model throws instead of taking the
    confirmed change, the collection is as it was and the presenter of the
    task's id is ABORTING, as if the service had rejected the call. *)
Theorem update_confirmed_model_throws (env : Js.Env) (updateType : UpdateType)
    (update response : Task) (b : Board) (h : Handle) :
  registry_ok b ->
  taskPresenter b !! id update = Some h ->
  mUpdate response (tasksModel b) = None ->
  exists b2,
    settle fp up down mUpdate mAdd mDelete
      (mkRequest UPDATE_TASK updateType update) (Resolved response) env b
    = Done b2 /\
    settle fp up down mUpdate mAdd mDelete
      (mkRequest UPDATE_TASK updateType update) Rejected env b
    = Done b2 /\
    tasksModel b2 = tasksModel b /\
    viewStateOf b2 (id update) = Some ABORTING /\
    api b2 = api b.
Proof.
  intros Hok Hh Hm.
  unfold settle, onFulfilled, modelApply, onRejected.
  cbn [reqAction reqUpdateType reqUpdate]. rewrite Hm, Hh.
  eexists. split; [reflexivity|]. split; [reflexivity|].
  split_and!; try (by destruct b). by apply viewStateOf_setViewState.
Qed.

(** X9: when the service confirms an update with PATCH for a task whose id
    has no presenter while the task that was sent has one, the model has
    taken the change by the time the notification faults, and the [catch]
    then marks the presenter of the sent task ABORTING: the collection holds
    the confirmed change although the form signals a failure. *)
Theorem update_confirmed_stale_response (env : Js.Env) (update response : Task)
    (b : Board) (h : Handle) (tasks' : list Task) :
  registry_ok b ->
  taskPresenter b !! id update = Some h ->
  taskPresenter b !! id response = None ->
  mUpdate response (tasksModel b) = Some tasks' ->
  exists b2,
    settle fp up down mUpdate mAdd mDelete
      (mkRequest UPDATE_TASK PATCH update) (Resolved response) env b = Done b2 /\
    tasksModel b2 = tasks' /\
    viewStateOf b2 (id update) = Some ABORTING /\
    taskPresenter b2 = taskPresenter b /\
    taskListComponent b2 = taskListComponent b.
Proof.
  intros Hok Hh Hnone Hm.
  unfold settle, onFulfilled, modelApply. cbn [reqAction reqUpdateType].
  rewrite Hm. unfold handleModelEvent.
  change (taskPresenter (set_tasksModel tasks' b)) with (taskPresenter b).
  rewrite Hnone. unfold onRejected. cbn [reqAction reqUpdate].
  change (taskPresenter (set_tasksModel tasks' b)) with (taskPresenter b).
  rewrite Hh. eexists. split; [reflexivity|].
  split_and!; try (by destruct b).
  apply viewStateOf_setViewState; [|done].
  by eapply registry_ok_ext; [| |exact Hok].
Qed.

(** *** What a render leaves *)

Lemma rerender_registry_lookup (r1 r2 : bool) (env : Js.Env) (b : Board)
    (i : Z) (h : nat) :
  let b' := renderBoard fp up down env (clearBoard fp up down r1 r2 env b) in
  taskPresenter b' !! i = Some h ->
  exists t, t ∈ tasksModel b /\ fp (filterModel b) env t = true /\ id t = i /\
            cardTask b' h = Some t /\ length (presenters b) <= h.
Proof.
  intros b' Hi.
  destruct (rerender_eq fp up down r1 r2 env b) as (Hr & Hp & _).
  fold b' in Hr, Hp.
  rewrite Hr in Hi.
  apply register_lookup_inv in Hi as [Hi|(k & t & Hk & Hid & ->)];
    [by rewrite lookup_empty in Hi|].
  exists t. destruct (isLoading b); [done|].
  assert (Hin : t ∈ getTasks fp up down env (clearBoard fp up down r1 r2 env b)).
  { pose proof Hk as Hk'. apply lookup_take_Some in Hk' as [Hk' _].
    by eapply list_elem_of_lookup_2. }
  apply elem_of_getTasks in Hin as [Hin Hfp].
  rewrite clearBoard_eq in Hin, Hfp. simpl in Hin, Hfp.
  split_and!; try done; [|lia].
  unfold cardTask. rewrite Hp, lookup_app_r by lia.
  replace (length (presenters b) + k - length (presenters b)) with k by lia.
  by rewrite list_lookup_fmap, Hk.
Qed.

Lemma register_size_le (tasks : list Task) (base : nat) (m : gmap Z nat) :
  size (register tasks base m) <= size m + length tasks.
Proof.
  revert base m. induction tasks as [|t ts IH]; intros base m; simpl; [lia|].
  etrans; [apply IH|]. rewrite map_size_insert.
  destruct (m !! id t); simpl; lia.
Qed.

(** X10: after a clear and the render that follows, whatever the flags and
    the state before, every id in the registry is the id of a task of the
    collection that passes the current filter, and its presenter was made by
    this render and shows that task; the registry holds at most as many
    presenters as the cursor counts and as tasks are visible, and none while
    the tasks are loading. *)
Theorem registered_ids_are_visible (r1 r2 : bool) (env : Js.Env) (b : Board) :
  let b' := renderBoard fp up down env (clearBoard fp up down r1 r2 env b) in
  (forall i h, taskPresenter b' !! i = Some h ->
     exists t, t ∈ tasksModel b /\ fp (filterModel b) env t = true /\
               id t = i /\ cardTask b' h = Some t /\
               length (presenters b) <= h) /\
  size (taskPresenter b') <= renderedTasksCount b' /\
  size (taskPresenter b') <= length (getTasks fp up down env b) /\
  (isLoading b = true -> taskPresenter b' = ∅).
Proof.
  intros b'. split; [intros i h; apply rerender_registry_lookup|].
  destruct (rerender_eq fp up down r1 r2 env b)
    as (Hr & _ & _ & _ & _ & _ & _ & _ & Hcur & _).
  fold b' in Hr, Hcur. rewrite Hr, Hcur.
  set (c := clearBoard fp up down r1 r2 env b).
  assert (Hn : length (getTasks fp up down env c)
               = length (getTasks fp up down env b)).
  { rewrite !(length_getTasks fp up down). subst c. by rewrite clearBoard_eq. }
  split_and!.
  - etrans; [apply register_size_le|]. rewrite map_size_empty.
    destruct (isLoading b); simpl; [lia|]. rewrite length_take. lia.
  - etrans; [apply register_size_le|]. rewrite map_size_empty.
    destruct (isLoading b); simpl; [lia|]. rewrite length_take. lia.
  - by intros ->.
Qed.

(** X11: when the service confirms a delete whose update type is MINOR or
    MAJOR and the model drops the task, the board is rendered from the new
    collection and no presenter is registered for the deleted id any more,
    so a later callback for that id finds none. *)
Theorem delete_confirmed (env : Js.Env) (updateType : UpdateType)
    (update response : Task) (b : Board) (tasks' : list Task) :
  updateType = MINOR \/ updateType = MAJOR ->
  mDelete update (tasksModel b) = Some tasks' ->
  (forall t, t ∈ tasks' -> id t <> id update) ->
  exists b2,
    settle fp up down mUpdate mAdd mDelete
      (mkRequest DELETE_TASK updateType update) (Resolved response) env b
    = Done b2 /\
    tasksModel b2 = tasks' /\
    taskPresenter b2 !! id update = None /\
    api b2 = api b.
Proof.
  intros Hut Hm Hgone.
  unfold settle, onFulfilled, modelApply. cbn [reqAction reqUpdateType reqUpdate].
  rewrite Hm.
  assert (Hgen : forall r1 r2,
             let b2 := renderBoard fp up down env
                         (clearBoard fp up down r1 r2 env
                            (set_tasksModel tasks' b)) in
             tasksModel b2 = tasks' /\ taskPresenter b2 !! id update = None /\
             api b2 = api b).
  { intros r1 r2 b2.
    destruct (rerender_eq fp up down r1 r2 env (set_tasksModel tasks' b))
      as (_ & _ & _ & Hmodel & _ & Hapi & _).
    fold b2 in Hmodel, Hapi. split_and!.
    - by rewrite Hmodel; destruct b.
    - destruct (taskPresenter b2 !! id update) as [h|] eqn:Hh; [|done].
      apply rerender_registry_lookup in Hh as (t & Hin & _ & Hid & _).
      exfalso. apply (Hgone t); [by destruct b|done].
    - by rewrite Hapi; destruct b. }
  destruct Hut as [-> | ->]; eexists; (split; [reflexivity|]); apply Hgen.
Qed.

(** X12: after a clear and the render that follows, exactly one of the
    loading placeholder, the empty-list placeholder and the sort control is
    on the page; which one is decided by the loading flag and by whether any
    task is visible, and the load-more control is there exactly when tasks
    are shown and the cursor is below their count.  No card is rendered
    while loading or when no task is visible. *)
Theorem render_placeholders (r1 r2 : bool) (env : Js.Env) (b : Board) :
  let c := clearBoard fp up down r1 r2 env b in
  let b' := renderBoard fp up down env c in
  let n := length (getTasks fp up down env b) in
  loadingComponent b' = isLoading b /\
  noTaskComponent b' = negb (isLoading b) && (n =? 0) /\
  ((exists s, sortComponent b' = Some (s, true)) <->
   isLoading b = false /\ n <> 0) /\
  (loadMoreShown b' = true <->
   isLoading b = false /\ renderedTasksCount b' < n) /\
  (isLoading b = true \/ n = 0 ->
   taskPresenter b' = ∅ /\ presenters b' = presenters b /\
   taskListComponent b' = taskListComponent c).
Proof.
  intros c b' n.
  assert (Hc : c = clearBoard fp up down r1 r2 env b) by done.
  rewrite clearBoard_eq in Hc.
  assert (Hn : length (getTasks fp up down env c) = n).
  { unfold n. rewrite !(length_getTasks fp up down). by rewrite Hc. }
  assert (Hload : isLoading c = isLoading b) by (by rewrite Hc).
  assert (Hsort : forall s, sortComponent c <> Some (s, true)).
  { intros s. rewrite Hc. simpl. by destruct (sortComponent b). }
  assert (Hmore : loadMoreButtonComponent c <> Some true).
  { rewrite Hc. simpl. by destruct (loadMoreButtonComponent b). }
  assert (Hflags : loadingComponent c = false /\ noTaskComponent c = false /\
                   taskPresenter c = ∅ /\ presenters c = presenters b)
    by (by rewrite Hc).
  destruct Hflags as (Hlc & Hnc & Hreg & Hpres).
  unfold loadMoreShown. subst b'. destruct (isLoading b) eqn:Hl.
  - rewrite renderBoard_loading by done. simpl.
    split_and!; try done.
    + split; [intros [s Hs]; by destruct (Hsort s)|by intros [? _]].
    + rewrite bool_decide_eq_true. split; [done|by intros [? _]].
  - rewrite renderBoard_eq by done. simpl. rewrite Hn.
    destruct (n =? 0) eqn:Hz.
    + apply Nat.eqb_eq in Hz.
      destruct (renderedTasksCount c <? n) eqn:Hlt;
        [apply Nat.ltb_lt in Hlt; lia|].
      split_and!; try done.
      * split; [intros [s Hs]; by destruct (Hsort s)|by intros [_ ?]].
      * rewrite bool_decide_eq_true. split; [done|intros [_ ?]; lia].
      * intros _. assert (Hnil : getTasks fp up down env c = [])
          by (apply length_zero_iff_nil; lia).
        rewrite Hnil, take_nil. simpl. by rewrite Hreg, Hpres, !app_nil_r.
    + apply Nat.eqb_neq in Hz. split_and!; try done.
      * split; [done|]. intros _. by eexists.
      * rewrite bool_decide_eq_true.
        destruct (renderedTasksCount c <? n) eqn:Hlt.
        -- apply Nat.ltb_lt in Hlt. done.
        -- apply Nat.ltb_ge in Hlt. split; [done|intros [_ ?]; lia].
      * intros [?|?]; done.
Qed.

(** X13: a click on the load-more control never takes a card or a presenter
    away, adds the cards of the slice it reveals, and leaves the cursor at
    most at the count of visible tasks; when the cursor has already reached
    that count (the control is stale), it adds nothing, sets the cursor to
    the count and takes the control off the page. *)
Theorem loadMore_bounds (env : Js.Env) (b : Board) :
  let b' := handleLoadMoreButtonClick fp up down env b in
  let n := length (getTasks fp up down env b) in
  renderedTasksCount b' <= n /\
  taskListComponent b `prefix_of` taskListComponent b' /\
  presenters b `prefix_of` presenters b' /\
  length (taskListComponent b')
  = length (taskListComponent b)
    + (Nat.min n (renderedTasksCount b + TASK_AMOUNT_PER_STEP)
       - renderedTasksCount b) /\
  (n <= renderedTasksCount b ->
   taskListComponent b' = taskListComponent b /\
   presenters b' = presenters b /\
   taskPresenter b' = taskPresenter b /\
   renderedTasksCount b' = n /\
   loadMoreShown b' = false).
Proof.
  intros b' n. subst b'. rewrite handleLoadMoreButtonClick_eq. fold n. simpl.
  unfold TASK_AMOUNT_PER_STEP.
  set (cur := renderedTasksCount b). set (cur' := Nat.min n (cur + 8)).
  split_and!.
  - lia.
  - by eexists.
  - by eexists.
  - rewrite length_app, length_seq, length_slice. fold n. lia.
  - intros Hend. assert (Hnil : Js.slice cur cur' (getTasks fp up down env b) = []).
    { unfold Js.slice. replace (cur' - cur) with 0 by lia. apply take_0. }
    rewrite Hnil. simpl. rewrite !app_nil_r.
    split_and!; try done; [lia|].
    unfold loadMoreShown. cbn [loadMoreButtonComponent].
    replace (n <=? cur') with true by (symmetry; apply Nat.leb_le; lia).
    apply bool_decide_eq_false. by destruct (loadMoreButtonComponent b).
Qed.

(** *** Clearing *)

Lemma clearBoard_twice (r1 r2 : bool) (env : Js.Env) (b : Board) :
  clearBoard fp up down r1 r2 env (clearBoard fp up down r1 r2 env b)
  = clearBoard fp up down r1 r2 env b.
Proof.
  rewrite (clearBoard_eq fp up down r1 r2 env (clearBoard fp up down r1 r2 env b)).
  rewrite (length_getTasks fp up down). rewrite !clearBoard_eq. simpl.
  rewrite map_to_list_empty. simpl. rewrite <- (length_getTasks fp up down).
  f_equal.
  - destruct r1; [done|]. lia.
  - by destruct r2.
  - by destruct (sortComponent b).
  - by destruct (loadMoreButtonComponent b).
Qed.

(** X14: clearing is idempotent: a second [_clearBoard] with the same flags
    changes nothing, and after a clear no registered presenter is left to
    destroy. *)
Theorem clearBoard_idempotent (r1 r2 : bool) (env : Js.Env) (b : Board) :
  let c := clearBoard fp up down r1 r2 env b in
  clearBoard fp up down r1 r2 env c = c /\
  taskPresenter c = ∅ /\
  (r1 = false -> renderedTasksCount c <= renderedTasksCount b) /\
  (r1 = false -> renderedTasksCount c <= length (getTasks fp up down env b)) /\
  presenters c = presenters b /\
  tasksModel c = tasksModel b /\ api c = api b.
Proof.
  intros c. split; [apply clearBoard_twice|].
  subst c. rewrite clearBoard_eq. simpl.
  split_and!; try done; intros ->; lia.
Qed.

(** *** Sorting *)

Lemma filter_sublist {A} (p : A -> bool) (l : list A) :
  List.filter p l `sublist_of` l.
Proof.
  induction l as [|x l IH]; simpl; [constructor|].
  destruct (p x); by constructor.
Qed.

(** X15: the sort mode changes the order of the visible tasks and nothing
    else: under every mode the visible sequence is a rearrangement of the
    tasks that pass the filter, so its length does not depend on the mode
    and every visible task is in the collection; under the default mode the
    tasks keep the order they have in the collection. *)
Theorem getTasks_sort_modes (env : Js.Env) (b : Board) (sortType : SortType) :
  getTasks fp up down env (set_currentSortType sortType b)
  ≡ₚ getTasks fp up down env b /\
  length (getTasks fp up down env (set_currentSortType sortType b))
  = length (getTasks fp up down env b) /\
  (forall t, t ∈ getTasks fp up down env b -> t ∈ tasksModel b) /\
  getTasks fp up down env (set_currentSortType DEFAULT b)
  `sublist_of` tasksModel b.
Proof.
  assert (Hperm : getTasks fp up down env (set_currentSortType sortType b)
                  ≡ₚ getTasks fp up down env b).
  { rewrite !getTasks_perm. by destruct b. }
  split_and!.
  - exact Hperm.
  - by apply Permutation_length.
  - intros t [Ht _]%elem_of_getTasks. exact Ht.
  - unfold getTasks, filter_by. destruct b; simpl. apply filter_sublist.
Qed.

(** X16: a change to another sort mode keeps the collection, the filter and
    the set of visible tasks, which it only reorders; it sets the mode,
    puts the cursor back to the page size, dismisses the creation form, shows
    a sort control for the new mode when tasks are visible, and shows the
    first page of the new order. *)
Theorem sort_change (env : Js.Env) (sortType : SortType) (b : Board) :
  sortType <> currentSortType b ->
  let b' := handleSortTypeChange fp up down env sortType b in
  currentSortType b' = sortType /\
  renderedTasksCount b' = TASK_AMOUNT_PER_STEP /\
  getTasks fp up down env b' ≡ₚ getTasks fp up down env b /\
  tasksModel b' = tasksModel b /\ filterModel b' = filterModel b /\
  api b' = api b /\
  taskNewPresenter b' = Dismissed /\
  (isLoading b = false -> getTasks fp up down env b <> [] ->
   sortComponent b' = Some (sortType, true)) /\
  (cards_registered b -> isLoading b = false ->
   materialized b' = take TASK_AMOUNT_PER_STEP (getTasks fp up down env b')).
Proof.
  intros Hne b'. subst b'. unfold handleSortTypeChange.
  rewrite bool_decide_eq_false_2 by congruence.
  set (b1 := set_currentSortType sortType b).
  set (c := clearBoard fp up down true false env b1).
  set (b' := renderBoard fp up down env c).
  destruct (rerender_eq fp up down true false env b1)
    as (_ & _ & _ & Hmodel & Hfilter & Hapi & Hload & Hsort & Hcur & Hnew).
  fold c b' in Hmodel, Hfilter, Hapi, Hload, Hsort, Hcur, Hnew.
  assert (Hc : c = clearBoard fp up down true false env b1) by done.
  rewrite clearBoard_eq in Hc.
  assert (Hcs : currentSortType c = sortType) by (by rewrite Hc).
  assert (Hcc : renderedTasksCount c = TASK_AMOUNT_PER_STEP) by (by rewrite Hc).
  assert (Hvis : getTasks fp up down env b' = getTasks fp up down env c).
  { apply getTasks_ext; [|  |done].
    - rewrite Hmodel. by rewrite Hc.
    - rewrite Hfilter. by rewrite Hc. }
  split_and!.
  - by rewrite Hsort.
  - by rewrite Hcur.
  - rewrite !getTasks_perm, Hmodel, Hfilter. by destruct b.
  - rewrite Hmodel. by destruct b.
  - rewrite Hfilter. by destruct b.
  - rewrite Hapi. by destruct b.
  - exact Hnew.
  - intros Hl Hnonempty. subst b'.
    rewrite renderBoard_eq by (rewrite Hc; by destruct b).
    cbn [sortComponent]. rewrite Hcs.
    replace (length (getTasks fp up down env c) =? 0) with false; [done|].
    symmetry. apply Nat.eqb_neq. intros Hz. apply Hnonempty.
    apply length_zero_iff_nil.
    rewrite (length_getTasks fp up down) in Hz |- *. rewrite Hc in Hz.
    by destruct b.
  - intros Hreg Hl.
    assert (Hreg1 : cards_registered b1)
      by (by eapply cards_registered_ext; [| |exact Hreg]; destruct b).
    pose proof (rerender_materialized fp up down true false env b1 Hreg1)
      as Hmat.
    cbv zeta in Hmat. fold c b' in Hmat.
    replace (isLoading b1) with false in Hmat by (by destruct b).
    by rewrite Hmat, Hvis, Hcc.
Qed.

(** *** Closing the editors *)

Lemma resetAll_eq (handles : list nat) (b : Board) :
  resetAll handles b
  = set_presenters
      (foldr (fun h P => alter (fun p => mkTaskPresenter (boundTask p) NORMAL) h P)
             (presenters b) handles) b.
Proof.
  induction handles as [|h hs IH].
  - by destruct b.
  - change (resetAll (h :: hs) b) with (resetView h (resetAll hs b)).
    rewrite IH. by destruct b.
Qed.

Lemma lookup_reset (handles : list nat) (P : list TaskPresenter) (h : nat) :
  foldr (fun h P => alter (fun p => mkTaskPresenter (boundTask p) NORMAL) h P)
        P handles !! h
  = if decide (h ∈ handles)
    then (fun p => mkTaskPresenter (boundTask p) NORMAL) <$> P !! h
    else P !! h.
Proof.
  induction handles as [|h0 hs IH].
  - rewrite decide_False; [done|]. apply not_elem_of_nil.
  - cbn [foldr]. destruct (decide (h0 = h)) as [->|Hne].
    + rewrite list_lookup_alter_eq, IH.
      rewrite (decide_True (P := h ∈ h :: hs)) by left.
      case_decide; [|done]. by destruct (P !! h).
    + rewrite list_lookup_alter_ne, IH by done.
      destruct (decide (h ∈ hs)) as [Hin|Hnin].
      * by rewrite decide_True by (by right).
      * rewrite decide_False; [done|]. by intros [?|?]%elem_of_cons.
Qed.

(** X17: a change of mode (an item opens its editor) dismisses the creation
    form and puts every registered presenter back to NORMAL, so no other
    editor stays open; it changes no task that a card shows, no presenter
    outside the registry, and nothing else of the board. *)
Theorem handleModeChange_closes_editors (b : Board) :
  registry_ok b ->
  let b' := handleModeChange b in
  taskNewPresenter b' = Dismissed /\
  (forall i, is_Some (taskPresenter b !! i) -> viewStateOf b' i = Some NORMAL) /\
  (forall h, cardTask b' h = cardTask b h) /\
  (forall h, (forall i, taskPresenter b !! i <> Some h) ->
             presenters b' !! h = presenters b !! h) /\
  taskPresenter b' = taskPresenter b /\
  taskListComponent b' = taskListComponent b /\
  tasksModel b' = tasksModel b /\ api b' = api b /\
  renderedTasksCount b' = renderedTasksCount b /\
  currentSortType b' = currentSortType b.
Proof.
  intros Hok b'. subst b'. unfold handleModeChange. rewrite resetAll_eq.
  cbn [taskPresenter presenters set_taskNewPresenter].
  set (hs := (map_to_list (taskPresenter b)).*2).
  split_and!; try (by destruct b).
  - intros i [h Hh]. unfold viewStateOf.
    cbn [taskPresenter presenters set_presenters set_taskNewPresenter].
    rewrite Hh. cbn [mbind option_bind]. rewrite lookup_reset.
    destruct (registry_ok_lookup b i h Hok Hh) as (p & t & Hp & _).
    rewrite decide_True by (apply elem_of_registry_values; by exists i).
    by rewrite Hp.
  - intros h. unfold cardTask.
    cbn [presenters set_presenters set_taskNewPresenter].
    rewrite lookup_reset. case_decide; [|done]. by destruct (presenters b !! h).
  - intros h Hnot. cbn [presenters set_presenters set_taskNewPresenter].
    rewrite lookup_reset. rewrite decide_False; [done|].
    intros [i Hi]%elem_of_registry_values. by apply (Hnot i).
Qed.

(** *** Two tasks of one id *)

(** X18: [_renderTask] for a task whose id is already registered takes the
    id over for the new presenter.  The presenter that had it is registered
    under no id any more while its card stays in the list; [_clearBoard]
    walks the registry, so no later clear or render removes that card. *)
Theorem duplicate_id_orphans_card (r1 r2 : bool) (env : Js.Env) (task : Task)
    (b : Board) (h : nat) :
  taskPresenter b !! id task = Some h ->
  h ∈ taskListComponent b ->
  h < length (presenters b) ->
  map_Forall (fun j h' => h' = h -> j = id task) (taskPresenter b) ->
  let b1 := renderTask task b in
  taskPresenter b1 !! id task = Some (length (presenters b)) /\
  (forall j, taskPresenter b1 !! j <> Some h) /\
  h ∈ taskListComponent b1 /\
  cardTask b1 h = cardTask b h /\
  h ∈ taskListComponent (clearBoard fp up down r1 r2 env b1) /\
  h ∈ taskListComponent
        (renderBoard fp up down env (clearBoard fp up down r1 r2 env b1)).
Proof.
  intros Hh Hin Hlt Honly b1. subst b1. rewrite renderTask_eq.
  set (b1 := set_taskPresenter _ _).
  assert (Hreg : taskPresenter b1
                 = <[id task := length (presenters b)]> (taskPresenter b))
    by done.
  assert (Hcards : taskListComponent b1
                   = taskListComponent b ++ [length (presenters b)]) by done.
  assert (Hnot : forall j, taskPresenter b1 !! j <> Some h).
  { intros j. rewrite Hreg. destruct (decide (id task = j)) as [<-|Hne].
    - rewrite lookup_insert_eq. intros [= ?]. lia.
    - rewrite lookup_insert_ne by done. intros Hj.
      apply Hne. symmetry. by apply (Honly j h Hj). }
  assert (Hin1 : h ∈ taskListComponent b1)
    by (rewrite Hcards; apply elem_of_app; by left).
  assert (Hclear : h ∈ taskListComponent (clearBoard fp up down r1 r2 env b1)).
  { rewrite clearBoard_eq. cbn [taskListComponent].
    by apply (proj2 (cleared_cards b1 h)). }
  split_and!; try done.
  - by rewrite Hreg, lookup_insert_eq.
  - unfold cardTask. subst b1. cbn [presenters set_taskPresenter
      set_taskListComponent set_presenters].
    by rewrite lookup_app_l.
  - destruct (rerender_eq fp up down r1 r2 env b1) as (_ & _ & Ht & _).
    rewrite Ht. apply elem_of_app. by left.
Qed.

(** *** [init] and [destroy] *)

(** X19: [destroy] leaves nothing of the board on the page and no
    subscription: the registry is empty, the creation form is dismissed, no
    placeholder or control is attached, the cursor and the sort mode are
    back at their first values, and a notification of the model no longer
    reaches the board; the loading flag is kept.  A second [destroy]
    changes nothing. *)
Theorem destroy_leaves_nothing (env : Js.Env) (pg : Page) :
  let pg' := Board_destroy fp up down env pg in
  let b' := board pg' in
  Board_destroy fp up down env pg' = pg' /\
  taskPresenter b' = ∅ /\ taskNewPresenter b' = Dismissed /\
  renderedTasksCount b' = TASK_AMOUNT_PER_STEP /\
  currentSortType b' = DEFAULT /\
  loadingComponent b' = false /\ noTaskComponent b' = false /\
  (forall s, sortComponent b' <> Some (s, true)) /\
  loadMoreShown b' = false /\
  boardShown pg' = false /\ taskListShown pg' = false /\
  observesTasks pg' = false /\ observesFilter pg' = false /\
  (forall updateType data,
      tasksModelNotifies fp up down env updateType data pg' = Done b') /\
  isLoading b' = isLoading (board pg) /\
  tasksModel b' = tasksModel (board pg) /\
  (cards_registered (board pg) -> taskListComponent b' = []).
Proof.
  intros pg' b'. subst b' pg'. unfold Board_destroy. cbn [board boardShown
    taskListShown observesTasks observesFilter].
  split; [by rewrite clearBoard_twice|].
  unfold tasksModelNotifies, loadMoreShown. cbn [observesTasks board].
  rewrite clearBoard_eq. simpl. split_and!; try done.
  - intros s. by destruct (sortComponent (board pg)).
  - apply bool_decide_eq_false. by destruct (loadMoreButtonComponent (board pg)).
  - apply cleared_cards_nil.
Qed.


End BoardMore.

(** ** The further theorems at work on sample boards *)

(** New York's offset varies by one hour. *)
Lemma newYork2023_offsets (x y : Z) :
  (Js.offsetOfLocal Sample.newYork2023 y - Js.offsetOfLocal Sample.newYork2023 x
   < Js.msPerDay)%Z.
Proof. unfold Js.msPerDay. simpl. repeat case_bool_decide; lia. Qed.

Lemma newYork2023_spread (x y : Z) :
  (Z.abs (Js.offsetAt Sample.newYork2023 x - Js.offsetOfLocal Sample.newYork2023 y)
   <= 3600000)%Z.
Proof. simpl. repeat case_bool_decide; lia. Qed.

(** Half past midnight and eleven in the evening of 5 November 2023 in New
    York, 23.5 hours apart, are in one local day. *)
Lemma date_predicates_same_day_witness :
  let morning := Sample.nov5 in
  let evening := Js.mkEnv 1699243200000 Sample.newYork2023 in
  Js.zone morning = Js.zone evening /\
  (Js.LocalTime (Js.zone morning) (Js.nowMs morning) / Js.msPerDay
   = Js.LocalTime (Js.zone evening) (Js.nowMs evening) / Js.msPerDay)%Z /\
  getCurrentDate morning = getCurrentDate evening.
Proof.
  intros morning evening.
  assert (H1 : Js.zone morning = Js.zone evening) by reflexivity.
  assert (H2 : (Js.LocalTime (Js.zone morning) (Js.nowMs morning) / Js.msPerDay
                = Js.LocalTime (Js.zone evening) (Js.nowMs evening)
                  / Js.msPerDay)%Z)
    by (vm_compute; reflexivity).
  split; [exact H1|]. split; [exact H2|].
  exact (proj1 (date_predicates_same_day morning evening None H1 H2)).
Defined.

(** A task due at the end of 4 November 2023 in New York expires that day
    and is overdue on the 5th, across the end of daylight saving.  In a zone
    without daylight saving, a task due at the end of the day of the sample
    clock is overdue 24 hours later. *)
Lemma expiring_today_is_overdue_later_witness :
  let due := Some (Js.mkDate (Some 1699156799999%Z)) in
  let due' := Some (Js.mkDate (Some 1700006399999%Z)) in
  let tomorrow :=
    Js.mkEnv (Js.nowMs Sample.env + 1 * Js.msPerDay) (Js.zone Sample.env) in
  (isTaskExpiringToday Sample.nov4 due = true /\
   isTaskExpired Sample.nov4 due = false /\
   isTaskExpired Sample.nov5 due = true /\
   isTaskExpiringToday Sample.nov5 due = false) /\
  (isTaskExpiringToday Sample.env due' = true /\
   isTaskExpired Sample.env due' = false /\
   isTaskExpired tomorrow due' = true /\
   isTaskExpiringToday tomorrow due' = false).
Proof.
  intros due due' tomorrow.
  assert (H1 : isTaskExpiringToday Sample.nov4 due = true)
    by (vm_compute; reflexivity).
  assert (H2 : Js.zone Sample.nov5 = Js.zone Sample.nov4) by reflexivity.
  assert (H3 : (Js.LocalTime (Js.zone Sample.nov4) (Js.nowMs Sample.nov4)
                / Js.msPerDay
                < Js.LocalTime (Js.zone Sample.nov5) (Js.nowMs Sample.nov5)
                  / Js.msPerDay)%Z)
    by (vm_compute; reflexivity).
  assert (H4 : Js.getTime (getCurrentDate Sample.nov5) <> None)
    by (vm_compute; discriminate).
  assert (H5 : isTaskExpiringToday Sample.env due' = true)
    by (vm_compute; reflexivity).
  assert (H6 : Js.zone tomorrow = Js.zone Sample.env) by reflexivity.
  assert (H7 : (Js.LocalTime (Js.zone Sample.env) (Js.nowMs Sample.env)
                / Js.msPerDay
                < Js.LocalTime (Js.zone tomorrow) (Js.nowMs tomorrow)
                  / Js.msPerDay)%Z)
    by (vm_compute; reflexivity).
  assert (H8 : forall x y,
             (Js.offsetOfLocal (Js.zone Sample.env) y
              - Js.offsetOfLocal (Js.zone Sample.env) x < Js.msPerDay)%Z)
    by (intros x y; vm_compute; reflexivity).
  assert (H9 : Js.getTime (getCurrentDate tomorrow) <> None)
    by (vm_compute; discriminate).
  split.
  - split; [exact H1|].
    exact (expiring_today_is_overdue_later Sample.nov4 Sample.nov5 due
             H1 H2 H3 newYork2023_offsets H4).
  - split; [exact H5|].
    exact (expiring_today_is_overdue_later Sample.env tomorrow due'
             H5 H6 H7 H8 H9).
Defined.

(** A clock 24 hours later need not be in a later local day: on
    5 November 2023 in New York, 24 hours after half past midnight it is
    half past eleven in the evening of the same day, and a task due at the
    end of that day still expires today. *)
Example a_day_of_25_hours :
  let later :=
    Js.mkEnv (Js.nowMs Sample.nov5 + Js.msPerDay) Sample.newYork2023 in
  let due := Some (getCurrentDate Sample.nov5) in
  getCurrentDate later = getCurrentDate Sample.nov5 /\
  isTaskExpiringToday Sample.nov5 due = true /\
  isTaskExpiringToday later due = true /\
  isTaskExpired later due = false.
Proof. vm_compute. repeat split. Qed.

(** On 4 November 2023 in New York, with the draws 1 and 2: the due date is
    the end of 6 November, 1699333199999, which is two days and one hour
    after the end of the 4th; it is neither overdue nor due today. *)
Lemma generateDate_classified_witness :
  let due := (generateDate (list Z) Sample.getRandomInteger Sample.nov4
                [1; 2]%Z).1 in
  due = Some (Js.mkDate (Some 1699333199999%Z)) /\
  Js.getTime (getCurrentDate Sample.nov4) = Some 1699156799999%Z /\
  (1699333199999 - 1699156799999 = 2 * Js.msPerDay + 3600000)%Z /\
  ~ isTaskExpired Sample.nov4 due = true /\
  ~ isTaskExpiringToday Sample.nov4 due = true.
Proof.
  intros due.
  assert (H1 : due = Some (Js.mkDate (Some 1699333199999%Z)))
    by (vm_compute; reflexivity).
  assert (H2 : Js.getTime (getCurrentDate Sample.nov4) = Some 1699156799999%Z)
    by (vm_compute; reflexivity).
  assert (H3 : Js.UTC Sample.newYork2023
                 (Js.LocalTime Sample.newYork2023 1699156799999)
               = 1699156799999%Z)
    by (vm_compute; reflexivity).
  pose proof (generateDate_classified (list Z) Sample.getRandomInteger
                Sample.nov4 [1; 2]%Z) as H.
  cbv zeta in H. fold due in H. rewrite H1 in H |- *.
  destruct H as (_ & _ & _ & H).
  destruct (H 1699156799999%Z 1699333199999%Z H2 eq_refl H3
              newYork2023_offsets) as [Hexp Htoday].
  split_and!; [reflexivity|exact H2|reflexivity| |].
  - intros He. apply Hexp in He. vm_compute in He. discriminate.
  - intros He. apply Htoday in He. vm_compute in He. discriminate.
Defined.

Lemma clampedRandom_in_range (a b : Z) (draws : list Z) :
  (a <= b)%Z -> (a <= (Sample.clampedRandom a b draws).1 <= b)%Z.
Proof. intros Hab. destruct draws as [|d rest]; simpl; lia. Qed.

(** On 4 November 2023 in New York, with a draw of 30 for the gap, which
    the random source brings back to 7: the due date is the end of
    11 November, seven days and one hour after the end of the 4th. *)
Lemma generateTask_ranges_witness :
  let task := (generateTask (list Z) Sample.clampedRandom Sample.COLORS
                 Sample.nov4 [1; 30; 2; 9; 0; 1]%Z).1 in
  let eod := 1699156799999%Z in
  (forall a b g', (a <= b)%Z ->
                  (a <= (Sample.clampedRandom a b g').1 <= b)%Z) /\
  dueDate task
  = Some (Js.mkDate (Some (eod + 7 * Js.msPerDay + 3600000)%Z)) /\
  (forall d t, dueDate task = Some d -> Js.getTime d = Some t ->
     (eod - 7 * Js.msPerDay - 3600000 <= t
      <= eod + 7 * Js.msPerDay + 3600000)%Z) /\
  (exists c, color task = Some c /\ c ∈ Sample.COLORS) /\
  mo (repeating task) = false.
Proof.
  intros task eod.
  pose proof (generateTask_ranges (list Z) Sample.clampedRandom Sample.COLORS
                Sample.nov4 [1; 30; 2; 9; 0; 1]%Z clampedRandom_in_range) as H.
  cbv zeta in H. fold task in H.
  destruct H as (Hdue & _ & Hc & _ & Hmo & _).
  split; [exact clampedRandom_in_range|].
  split; [vm_compute; reflexivity|].
  split; [|split; [|exact Hmo]].
  - intros d t Hd Ht. destruct (Hdue d Hd) as (gap & _ & _ & Hbound).
    apply (Hbound t eod 3600000%Z Ht); [vm_compute; reflexivity|].
    exact newYork2023_spread.
  - apply Hc. discriminate.
Defined.

Lemma delete_rejected_witness :
  registry_ok (Sample.loaded 10) /\
  handleViewAction DELETE_TASK MINOR (Sample.plainTask 3) (Sample.loaded 10)
  = Done Sample.deleting3 /\
  exists b2,
    Sample.settled Sample.deleteOf3 Rejected Sample.deleting3 = Done b2 /\
    tasksModel b2 = tasksModel (Sample.loaded 10) /\
    viewStateOf b2 3%Z = Some ABORTING.
Proof.
  assert (H1 : registry_ok (Sample.loaded 10))
    by (apply (bool_decide_unpack _); vm_compute; exact I).
  assert (H2 : handleViewAction DELETE_TASK MINOR (Sample.plainTask 3)
                 (Sample.loaded 10) = Done Sample.deleting3)
    by (vm_compute; reflexivity).
  split; [exact H1|]. split; [exact H2|].
  destruct (delete_rejected Sample.filterPredicate Sample.sortTasksUp
              Sample.sortTasksDown Sample.updateTask Sample.addTask
              Sample.deleteTask Sample.env MINOR (Sample.plainTask 3)
              (Sample.loaded 10) Sample.deleting3 H1 H2)
    as (_ & _ & b2 & Hs & Hm & _ & _ & Hv & _).
  exists b2. split; [exact Hs|]. split; [exact Hm|exact Hv].
Defined.

Lemma update_confirmed_patch_witness :
  let tasks' :=
    map (fun t => if bool_decide (id t = 3%Z) then Sample.confirmed3 else t)
        (Sample.tasks 10) in
  registry_ok Sample.saving3 /\
  taskPresenter Sample.saving3 !! id Sample.confirmed3 = Some 2 /\
  Sample.updateTask Sample.confirmed3 (tasksModel Sample.saving3) = Some tasks' /\
  exists b2,
    Sample.settled Sample.updateOf3 (Resolved Sample.confirmed3) Sample.saving3
    = Done b2 /\
    cardTask b2 2 = Some Sample.confirmed3 /\
    viewStateOf b2 (id Sample.confirmed3) = Some NORMAL.
Proof.
  intros tasks'.
  assert (H1 : registry_ok Sample.saving3)
    by (apply (bool_decide_unpack _); vm_compute; exact I).
  assert (H2 : taskPresenter Sample.saving3 !! id Sample.confirmed3 = Some 2)
    by (vm_compute; reflexivity).
  assert (H3 : Sample.updateTask Sample.confirmed3 (tasksModel Sample.saving3)
               = Some tasks')
    by (vm_compute; reflexivity).
  split; [exact H1|]. split; [exact H2|]. split; [exact H3|].
  destruct (update_confirmed_patch Sample.filterPredicate Sample.sortTasksUp
              Sample.sortTasksDown Sample.updateTask Sample.addTask
              Sample.deleteTask Sample.env (Sample.plainTask 3)
              Sample.confirmed3 Sample.saving3 2 tasks' H1 H2 H3)
    as (b2 & Hs & _ & Hc & Hv & _).
  exists b2. split; [exact Hs|]. split; [exact Hc|exact Hv].
Defined.

Lemma update_confirmed_model_throws_witness :
  registry_ok Sample.saving3 /\
  taskPresenter Sample.saving3 !! id (Sample.plainTask 3) = Some 2 /\
  Sample.updateTask Sample.unknown99 (tasksModel Sample.saving3) = None /\
  exists b2,
    Sample.settled Sample.updateOf3 (Resolved Sample.unknown99) Sample.saving3
    = Done b2 /\
    viewStateOf b2 (id (Sample.plainTask 3)) = Some ABORTING.
Proof.
  assert (H1 : registry_ok Sample.saving3)
    by (apply (bool_decide_unpack _); vm_compute; exact I).
  assert (H2 : taskPresenter Sample.saving3 !! id (Sample.plainTask 3) = Some 2)
    by (vm_compute; reflexivity).
  assert (H3 : Sample.updateTask Sample.unknown99 (tasksModel Sample.saving3)
               = None)
    by (vm_compute; reflexivity).
  split; [exact H1|]. split; [exact H2|]. split; [exact H3|].
  destruct (update_confirmed_model_throws Sample.filterPredicate
              Sample.sortTasksUp Sample.sortTasksDown Sample.updateTask
              Sample.addTask Sample.deleteTask Sample.env PATCH
              (Sample.plainTask 3) Sample.unknown99 Sample.saving3 2 H1 H2 H3)
    as (b2 & Hs & _ & _ & Hv & _).
  exists b2. split; [exact Hs|exact Hv].
Defined.

Lemma update_confirmed_stale_response_witness :
  let tasks' :=
    map (fun t => if bool_decide (id t = 9%Z) then Sample.unshown9 else t)
        (Sample.tasks 10) in
  registry_ok Sample.saving3 /\
  taskPresenter Sample.saving3 !! id (Sample.plainTask 3) = Some 2 /\
  taskPresenter Sample.saving3 !! id Sample.unshown9 = None /\
  Sample.updateTask Sample.unshown9 (tasksModel Sample.saving3) = Some tasks' /\
  exists b2,
    Sample.settled Sample.updateOf3 (Resolved Sample.unshown9) Sample.saving3
    = Done b2 /\
    tasksModel b2 = tasks' /\
    viewStateOf b2 (id (Sample.plainTask 3)) = Some ABORTING.
Proof.
  intros tasks'.
  assert (H1 : registry_ok Sample.saving3)
    by (apply (bool_decide_unpack _); vm_compute; exact I).
  assert (H2 : taskPresenter Sample.saving3 !! id (Sample.plainTask 3) = Some 2)
    by (vm_compute; reflexivity).
  assert (H3 : taskPresenter Sample.saving3 !! id Sample.unshown9 = None)
    by (vm_compute; reflexivity).
  assert (H4 : Sample.updateTask Sample.unshown9 (tasksModel Sample.saving3)
               = Some tasks')
    by (vm_compute; reflexivity).
  split; [exact H1|]. split; [exact H2|]. split; [exact H3|].
  split; [exact H4|].
  destruct (update_confirmed_stale_response Sample.filterPredicate
              Sample.sortTasksUp Sample.sortTasksDown Sample.updateTask
              Sample.addTask Sample.deleteTask Sample.env
              (Sample.plainTask 3) Sample.unshown9 Sample.saving3 2 tasks'
              H1 H2 H3 H4)
    as (b2 & Hs & Hm & Hv & _).
  exists b2. split; [exact Hs|]. split; [exact Hm|exact Hv].
Defined.

Lemma delete_confirmed_witness :
  let tasks' :=
    List.filter (fun t => negb (bool_decide (id t = 3%Z))) (Sample.tasks 10) in
  (MINOR = MINOR \/ MINOR = MAJOR) /\
  Sample.deleteTask (Sample.plainTask 3) (tasksModel Sample.deleting3)
  = Some tasks' /\
  (forall t, t ∈ tasks' -> id t <> id (Sample.plainTask 3)) /\
  exists b2,
    Sample.settled Sample.deleteOf3 (Resolved (Sample.plainTask 3))
      Sample.deleting3 = Done b2 /\
    taskPresenter b2 !! 3%Z = None.
Proof.
  intros tasks'.
  assert (H1 : MINOR = MINOR \/ MINOR = MAJOR) by (left; reflexivity).
  assert (H2 : Sample.deleteTask (Sample.plainTask 3)
                 (tasksModel Sample.deleting3) = Some tasks')
    by (vm_compute; reflexivity).
  assert (H3 : forall t, t ∈ tasks' -> id t <> id (Sample.plainTask 3)).
  { intros t Ht. apply list_elem_of_In, filter_In in Ht as [_ Ht].
    apply negb_true_iff, bool_decide_eq_false in Ht. exact Ht. }
  split; [exact H1|]. split; [exact H2|]. split; [exact H3|].
  destruct (delete_confirmed Sample.filterPredicate Sample.sortTasksUp
              Sample.sortTasksDown Sample.updateTask Sample.addTask
              Sample.deleteTask Sample.env MINOR (Sample.plainTask 3)
              (Sample.plainTask 3) Sample.deleting3 tasks' H1 H2 H3)
    as (b2 & Hs & _ & Hnone & _).
  exists b2. split; [exact Hs|exact Hnone].
Defined.

Lemma sort_change_witness :
  DATE_UP <> currentSortType (Sample.loaded 10) /\
  currentSortType
    (handleSortTypeChange Sample.filterPredicate Sample.sortTasksUp
       Sample.sortTasksDown Sample.env DATE_UP (Sample.loaded 10)) = DATE_UP.
Proof.
  assert (H1 : DATE_UP <> currentSortType (Sample.loaded 10))
    by (vm_compute; discriminate).
  split; [exact H1|].
  exact (proj1 (sort_change Sample.filterPredicate Sample.sortTasksUp
                  Sample.sortTasksDown Sample.env DATE_UP (Sample.loaded 10) H1)).
Defined.

Lemma handleModeChange_closes_editors_witness :
  registry_ok Sample.saving3 /\
  viewStateOf Sample.saving3 3%Z = Some SAVING /\
  viewStateOf (handleModeChange Sample.saving3) 3%Z = Some NORMAL.
Proof.
  assert (H1 : registry_ok Sample.saving3)
    by (apply (bool_decide_unpack _); vm_compute; exact I).
  split; [exact H1|]. split; [vm_compute; reflexivity|].
  pose proof (handleModeChange_closes_editors Sample.saving3 H1) as H.
  cbv zeta in H. destruct H as (_ & Hall & _).
  apply Hall. exists 2. vm_compute. reflexivity.
Defined.

Lemma duplicate_id_orphans_card_witness :
  let b := Sample.loaded 1 in
  let twin := Sample.datedTask 1 0 in
  taskPresenter b !! id twin = Some 0 /\
  0 ∈ taskListComponent b /\
  0 < length (presenters b) /\
  map_Forall (fun j h' => h' = 0 -> j = id twin) (taskPresenter b) /\
  0 ∈ taskListComponent
        (clearBoard Sample.filterPredicate Sample.sortTasksUp
           Sample.sortTasksDown false false Sample.env (renderTask twin b)).
Proof.
  intros b twin.
  assert (H1 : taskPresenter b !! id twin = Some 0) by (vm_compute; reflexivity).
  assert (H2 : 0 ∈ taskListComponent b)
    by (apply (bool_decide_unpack _); vm_compute; exact I).
  assert (H3 : 0 < length (presenters b)) by (vm_compute; lia).
  assert (H4 : map_Forall (fun j h' => h' = 0 -> j = id twin) (taskPresenter b))
    by (apply (bool_decide_unpack _); vm_compute; exact I).
  split; [exact H1|]. split; [exact H2|]. split; [exact H3|].
  split; [exact H4|].
  pose proof (duplicate_id_orphans_card Sample.filterPredicate
                Sample.sortTasksUp Sample.sortTasksDown false false Sample.env
                twin b 0 H1 H2 H3 H4) as H.
  cbv zeta in H. destruct H as (_ & _ & _ & _ & Hc & _). exact Hc.
Defined.

(** A collection with two tasks of id 1: both are rendered, one presenter is
    registered, and after a MINOR event the card of the other is still in
    the list beside the two new ones. *)
Example twins_leave_a_card :
  let b := renderBoard Sample.filterPredicate Sample.sortTasksUp
             Sample.sortTasksDown Sample.env
             (set_isLoading false (newBoard Sample.twins ALL)) in
  length (taskListComponent b) = 2 /\ size (taskPresenter b) = 1 /\
  length (taskListComponent
            (boardOf (Sample.notify MINOR (Sample.plainTask 1) b))) = 3.
Proof. vm_compute. repeat split. Qed.


Lemma registry_ok_preserved_witness :
  registry_ok (Sample.loaded 10) /\
  registry_ok (Sample.loadMore (Sample.loaded 10)).
Proof.
  assert (H1 : registry_ok (Sample.loaded 10))
    by (apply (bool_decide_unpack _); vm_compute; exact I).
  split; [exact H1|].
  exact (proj1 (proj2 (proj2
           (registry_ok_preserved Sample.filterPredicate Sample.sortTasksUp
              Sample.sortTasksDown Sample.env (Sample.loaded 10) H1)))).
Defined.
